(** * Password-Strength-Validator: the evaluator and its input gate

    A shallow embedding of [src/components/PassWordStrengthValidator.tsx]:
    the scoring function [evaluatePassword], the input filter
    [handlePasswordChange] with its helper [isAsciiOnly], and the part of the
    React component that owns the [password] / [strength] pair.

    Modelling conventions.
    - A JavaScript string is its sequence of UTF-16 code units ([list N]);
      [.length], regular expressions without the [u] flag and [.includes]
      all work on code units, so "character" below means code unit.
    - A JavaScript number holding a count or a threshold is a [Z].  The
      conversion of such a number to a string is modelled for the safe
      integers ([Number.isSafeInteger]), where the runtime prints the
      decimal digits of the number; larger numbers are printed with rounded
      digits or in exponent notation, which the model does not follow, so
      every statement about the text of the length message assumes a safe
      [minLength].
    - [String.prototype.toLowerCase] is the ASCII map on ASCII-only strings;
      on other strings it follows the Unicode case tables of the runtime,
      which are not part of the repository and are taken as a parameter. *)

From Stdlib Require Import List NArith ZArith Bool Ascii String Lia.
Import ListNotations.

Set Implicit Arguments.

(* ================================================================== *)
(** ** JavaScript strings *)

Module JS.

Definition codeUnit := N.
Definition jsstring := list codeUnit.

(** A string literal of the source whose characters are all ASCII. *)
Definition lit (s : string) : jsstring :=
  map N_of_ascii (list_ascii_of_string s).

(** The empty string literal. *)
Definition emptyString : jsstring := lit EmptyString.

(** ['a'.repeat(n)] for a one-character string. *)
Definition repeatChar (c : codeUnit) (n : nat) : jsstring := repeat c n.

Definition inRange (lo hi c : codeUnit) : bool :=
  ((lo <=? c) && (c <=? hi))%N.

Definition jsstring_eq_dec : forall s t : jsstring, {s = t} + {s <> t} :=
  list_eq_dec N.eq_dec.

(** *** Regular expressions

    [re.test(s)] for a pattern without the sticky or global flag tries
    the pattern at every start index [0 .. s.length] and answers whether
    one of them matches.  [matchAt] is the pattern applied at the head of
    the remaining input. *)
Fixpoint regexTest (matchAt : jsstring -> bool) (s : jsstring) : bool :=
  matchAt s ||
  match s with
  | [] => false
  | _ :: s' => regexTest matchAt s'
  end.

(** A pattern that is one character class: [[A-Z]], [\d], ... *)
Definition matchClass (cls : codeUnit -> bool) (s : jsstring) : bool :=
  match s with
  | c :: _ => cls c
  | [] => false
  end.

(** [^[cls]*$]: anchored at both ends (no [m] flag), so the only start
    index that can match is 0 and the star has to consume the whole
    input. *)
Definition matchAnchoredStar (cls : codeUnit -> bool) (s : jsstring) : bool :=
  forallb cls s.

(** The line terminators of ECMAScript: LF, CR, LS and PS.  Without the
    [s] flag the atom [.] matches every code unit except these. *)
Definition isLineTerminator (c : codeUnit) : bool :=
  ((c =? 10) || (c =? 13) || (c =? 8232) || (c =? 8233))%N.

Definition dot (c : codeUnit) : bool := negb (isLineTerminator c).

(** [\1{n,}] once group 1 has captured the single character [c]: the input
    has to go on with at least [n] copies of [c]. *)
Fixpoint matchBackrefAtLeast (n : nat) (c : codeUnit) (s : jsstring) : bool :=
  match n with
  | O => true
  | S n' =>
      match s with
      | x :: s' => (x =? c)%N && matchBackrefAtLeast n' c s'
      | [] => false
      end
  end.

(** [(.)\1{2,}] at the head of the input. *)
Definition matchRepeated (s : jsstring) : bool :=
  match s with
  | c :: rest => dot c && matchBackrefAtLeast 2 c rest
  | [] => false
  end.

(** *** String methods *)

Fixpoint startsWith (pat s : jsstring) : bool :=
  match pat with
  | [] => true
  | p :: pat' =>
      match s with
      | c :: s' => (c =? p)%N && startsWith pat' s'
      | [] => false
      end
  end.

(** [s.includes(pat)]: [pat] occurs at some index of [s]. *)
Fixpoint includes (s pat : jsstring) : bool :=
  startsWith pat s ||
  match s with
  | [] => false
  | _ :: s' => includes s' pat
  end.

Definition isAscii (c : codeUnit) : bool := (c <=? 127)%N.

Definition asciiToLower (c : codeUnit) : codeUnit :=
  if inRange 65%N 90%N c then (c + 32)%N else c.

(** [Number.isSafeInteger] on an integer: at most 2^53 - 1 in absolute
    value. *)
Definition isSafeInteger (n : Z) : bool :=
  (Z.abs n <=? 9007199254740991)%Z.

(** The decimal digits of [n], most significant first, put in front of
    [acc]; [fuel] bounds the number of digits produced. *)
Fixpoint decimalDigits (fuel : nat) (n : N) (acc : jsstring) : jsstring :=
  match fuel with
  | O => acc
  | S fuel' =>
      let acc' := (48 + n mod 10)%N :: acc in
      if (n / 10 =? 0)%N then acc' else decimalDigits fuel' (n / 10)%N acc'
  end.

(** Number-to-string conversion of a template literal, for an integer: a
    minus sign for a negative number, then the decimal digits of its
    absolute value (the binary size of a number bounds the number of its
    decimal digits).  The runtime prints exactly this for every safe
    integer. *)
Definition numberToString (n : Z) : jsstring :=
  let m := Z.abs_N n in
  let digits := decimalDigits (S (N.to_nat (N.size m))) m [] in
  if (n <? 0)%Z then 45%N :: digits else digits.

End JS.

Import JS.

(* ================================================================== *)
(** ** Data model *)

(** [interface StrengthCriteria] *)
Record StrengthCriteria := mkCriteria {
  length_ok : bool;          (* the [length] key *)
  uppercase : bool;
  lowercase : bool;
  numbers : bool;
  specialChars : bool;
  noRepeatedChars : bool;
  noCommonPatterns : bool
}.

(** [Object.values(criteria)]: the values in the order the keys were
    written in the object literal. *)
Definition Object_values (c : StrengthCriteria) : list bool :=
  [ length_ok c; uppercase c; lowercase c; numbers c; specialChars c;
    noRepeatedChars c; noCommonPatterns c ].

(** ['Weak' | 'Medium' | 'Strong'] *)
Inductive Level := Weak | Medium | Strong.

(** [interface Strength] *)
Record Strength := mkStrength {
  level : Level;
  score : Z;
  maxScore : Z;
  criteria : StrengthCriteria;
  feedback : list jsstring
}.

(** The configurable part of [interface Props]. *)
Record Props := mkProps {
  minLength : Z;
  requireUppercase : bool;
  requireLowercase : bool;
  requireNumbers : bool;
  requireSpecialChars : bool;
  preventRepeatedChars : bool;
  preventCommonPatterns : bool
}.

(** The defaults of the destructuring pattern of the component. *)
Definition defaultProps : Props :=
  {| minLength := 8;
     requireUppercase := true;
     requireLowercase := true;
     requireNumbers := true;
     requireSpecialChars := true;
     preventRepeatedChars := true;
     preventCommonPatterns := true |}.

(** [const commonPatterns] *)
Definition commonPatterns : list jsstring :=
  [ lit "123456";
    lit "password";
    lit "qwerty";
    lit "abc123";
    lit "abcdefghijklmnopqrstuvwxyz";
    lit "123456789" ].

(** The members of the character class of the [specialChars] pattern, in
    the order they are written there; code unit 34 is the double quote. *)
Definition specialCharSet : jsstring :=
  lit "!@#$%^&*(),.?" ++ [34%N] ++ lit ":{}|<>".

Definition isSpecialChar (c : codeUnit) : bool :=
  existsb (N.eqb c) specialCharSet.

(** [const isAsciiOnly = (str) => /^[\x00-\x7F]*$/.test(str)] *)
Definition isAsciiOnly (str : jsstring) : bool :=
  matchAnchoredStar (inRange 0%N 127%N) str.

(* ================================================================== *)
(** ** The evaluator *)

Section Evaluator.

(** The case conversion of the runtime on strings that are not pure ASCII. *)
Variable unicodeToLower : jsstring -> jsstring.

(** [pwd.toLowerCase()] *)
Definition toLowerCase (s : jsstring) : jsstring :=
  if forallb isAscii s then map asciiToLower s else unicodeToLower s.

Variable props : Props.

(** The object literal [criteria] of [evaluatePassword]. *)
Definition evalCriteria (pwd : jsstring) : StrengthCriteria :=
  {| length_ok := (minLength props <=? Z.of_nat (List.length pwd))%Z;
     uppercase := regexTest (matchClass (inRange 65%N 90%N)) pwd;
     lowercase := regexTest (matchClass (inRange 97%N 122%N)) pwd;
     numbers := regexTest (matchClass (inRange 48%N 57%N)) pwd;
     specialChars := regexTest (matchClass isSpecialChar) pwd;
     noRepeatedChars := negb (regexTest matchRepeated pwd);
     noCommonPatterns :=
       negb (existsb (fun pattern => includes (toLowerCase pwd) pattern)
                     commonPatterns) |}.

(** [Object.values(criteria).forEach((value) => value && score++)],
    starting from [score]. *)
Definition countPassed (values : list bool) (score : Z) : Z :=
  fold_left (fun (score : Z) (value : bool) => if value then (score + 1)%Z else score)
            values score.

(** [feedback.push(msg)] *)
Definition push (feedback : list jsstring) (msg : jsstring) : list jsstring :=
  feedback ++ [msg].

(** The seven guarded [push] statements, in program order. *)
Definition buildFeedback (c : StrengthCriteria) : list jsstring :=
  let feedback := [] in
  let feedback :=
    if negb (length_ok c)
    then push feedback
           (lit "Minimum " ++ numberToString (minLength props) ++ lit " characters")
    else feedback in
  let feedback :=
    if requireUppercase props && negb (uppercase c)
    then push feedback (lit "Add uppercase letters") else feedback in
  let feedback :=
    if requireLowercase props && negb (lowercase c)
    then push feedback (lit "Add lowercase letters") else feedback in
  let feedback :=
    if requireNumbers props && negb (numbers c)
    then push feedback (lit "Add numbers") else feedback in
  let feedback :=
    if requireSpecialChars props && negb (specialChars c)
    then push feedback (lit "Add special characters") else feedback in
  let feedback :=
    if preventRepeatedChars props && negb (noRepeatedChars c)
    then push feedback (lit "Avoid repeated characters") else feedback in
  let feedback :=
    if preventCommonPatterns props && negb (noCommonPatterns c)
    then push feedback (lit "Avoid common patterns") else feedback in
  feedback.

(** [let level = 'Weak'; if (score >= 6) ... else if (score >= 4) ...] *)
Definition levelOf (score : Z) : Level :=
  let level := Weak in
  if (6 <=? score)%Z then Strong
  else if (4 <=? score)%Z then Medium
  else level.

Definition evaluatePassword (pwd : jsstring) : Strength :=
  let score := 0%Z in
  let criteria := evalCriteria pwd in
  let score := countPassed (Object_values criteria) score in
  let feedback := buildFeedback criteria in
  let level := levelOf score in
  {| level := level;
     score := score;
     maxScore := 7;
     criteria := criteria;
     feedback := feedback |}.

End Evaluator.

(* ================================================================== *)
(** ** The hosting component

    The component owns two state cells, [password] and [strength].  The
    calls made by its effect are recorded next to them: [evaluated] lists
    the arguments [evaluatePassword] was invoked on and [notified] the
    results handed to [onStrengthChange], oldest first. *)

Record Component := mkComponent {
  password : jsstring;
  strength : Strength;
  evaluated : list jsstring;
  notified : list Strength
}.

(** The initial values given to the two [useState] calls. *)
Definition initialStrength : Strength :=
  {| level := Weak;
     score := 0;
     maxScore := 7;
     criteria :=
       {| length_ok := false;
          uppercase := false;
          lowercase := false;
          numbers := false;
          specialChars := false;
          noRepeatedChars := false;
          noCommonPatterns := false |};
     feedback := [] |}.

Definition initialComponent : Component :=
  {| password := emptyString;
     strength := initialStrength;
     evaluated := [];
     notified := [] |}.

Definition setPassword (text : jsstring) (st : Component) : Component :=
  {| password := text;
     strength := strength st;
     evaluated := evaluated st;
     notified := notified st |}.

(** The guard of [handlePasswordChange]:
    [text.length > 25 || !isAsciiOnly(text)]. *)
Definition rejects (text : jsstring) : bool :=
  (25 <? List.length text)%nat || negb (isAsciiOnly text).

(** [if (rejects) return; setPassword(text);] *)
Definition handlePasswordChange (text : jsstring) (st : Component) : Component :=
  if rejects text then st else setPassword text st.

(** The gate seen as a predicate on candidates: the candidate is adopted
    exactly when the guard does not fire. *)
Definition accept (candidate : jsstring) : bool := negb (rejects candidate).

Section Hosting.

Variable unicodeToLower : jsstring -> jsstring.
Variable props : Props.

(** The body of the [useEffect] hook. *)
Definition runEffect (st : Component) : Component :=
  let result := evaluatePassword unicodeToLower props (password st) in
  {| password := password st;
     strength := result;
     evaluated := evaluated st ++ [password st];
     notified := notified st ++ [result] |}.

(** First render: the effect runs once on the initial state. *)
Definition mount : Component := runEffect initialComponent.

(** One [onChangeText] event.  The effect depends on [[password]] only,
    so it runs again exactly when the stored value has changed. *)
Definition changeText (text : jsstring) (st : Component) : Component :=
  let st' := handlePasswordChange text st in
  if jsstring_eq_dec (password st') (password st) then st' else runEffect st'.

(** The component after a sequence of change events. *)
Definition run (texts : list jsstring) : Component :=
  fold_left (fun st text => changeText text st) texts mount.

(** The states the component can be in. *)
Inductive reachable : Component -> Prop :=
| reach_mount : reachable mount
| reach_change : forall st text,
    reachable st -> reachable (changeText text st).

End Hosting.

(* ================================================================== *)
(** ** Vocabulary of the specification *)

(** What the input gate promises about a stored value. *)
Definition wellFormedInput (s : jsstring) : Prop :=
  (List.length s <= 25)%nat /\ Forall (fun c => (c <= 127)%N) s.

(** The invariant carried by the component: the stored password and every
    argument [evaluatePassword] has been called on passed the gate. *)
Definition componentInvariant (st : Component) : Prop :=
  wellFormedInput (password st) /\ Forall wellFormedInput (evaluated st).

(** [pat] occurs in [s]. *)
Definition Substring (pat s : jsstring) : Prop :=
  exists pre post, s = pre ++ pat ++ post.

(** [s] contains [n] consecutive copies of [c]. *)
Definition HasRun (c : codeUnit) (n : nat) (s : jsstring) : Prop :=
  exists pre post, s = pre ++ repeat c n ++ post.

(** The number a string of decimal digits denotes, continuing from [acc];
    [None] when a character is not a digit. *)
Fixpoint digitsValue (s : jsstring) (acc : N) : option N :=
  match s with
  | [] => Some acc
  | c :: s' =>
      if inRange 48%N 57%N c
      then digitsValue s' (10 * acc + (c - 48))%N
      else None
  end.

(** The integer a decimal numeral denotes.  Only numerals in canonical form
    denote: digits without a leading zero (the numeral 0 apart), with a
    minus sign in front for a negative integer. *)
Definition decimalValue (s : jsstring) : option Z :=
  match s with
  | [] => None
  | c :: rest =>
      if (c =? 45)%N then
        match rest with
        | [] => None
        | d :: _ =>
            if (d =? 48)%N then None
            else option_map (fun v => (- Z.of_N v)%Z) (digitsValue rest 0%N)
        end
      else if (c =? 48)%N then
        match rest with
        | [] => Some 0%Z
        | _ :: _ => None
        end
      else option_map Z.of_N (digitsValue s 0%N)
  end.

(** One line of the feedback rule table of the specification: whether the
    rule is enabled by the configuration, whether the criterion passed, and
    the message of the rule. *)
Record FeedbackRule := mkRule {
  enabled : bool;
  passed : bool;
  message : jsstring
}.

(** The seven rules in their fixed order; the length rule is always
    enabled, and [numeral] is the minimum length as it is written in its
    message. *)
Definition feedbackRules (numeral : jsstring) (props : Props)
    (c : StrengthCriteria) : list FeedbackRule :=
  [ mkRule true (length_ok c)
      (lit "Minimum " ++ numeral ++ lit " characters");
    mkRule (requireUppercase props) (uppercase c) (lit "Add uppercase letters");
    mkRule (requireLowercase props) (lowercase c) (lit "Add lowercase letters");
    mkRule (requireNumbers props) (numbers c) (lit "Add numbers");
    mkRule (requireSpecialChars props) (specialChars c)
      (lit "Add special characters");
    mkRule (preventRepeatedChars props) (noRepeatedChars c)
      (lit "Avoid repeated characters");
    mkRule (preventCommonPatterns props) (noCommonPatterns c)
      (lit "Avoid common patterns") ].

(** A rule contributes its message exactly when it is enabled and its
    criterion failed. *)
Definition fires (r : FeedbackRule) : bool := enabled r && negb (passed r).

Definition specFeedback (rules : list FeedbackRule) : list jsstring :=
  map message (filter fires rules).

(** A configuration with the default length and every flag switched off,
    and a runtime whose case conversion leaves non-ASCII strings alone. *)
Definition lenientProps : Props :=
  {| minLength := 8;
     requireUppercase := false;
     requireLowercase := false;
     requireNumbers := false;
     requireSpecialChars := false;
     preventRepeatedChars := false;
     preventCommonPatterns := false |}.

Definition keepCase (s : jsstring) : jsstring := s.

(** The candidate of the test suite with an emoji and a non-ASCII letter:
    [P@ss], the surrogate pair of U+1F680, [W], U+00F8, [rd123]. *)
Definition emojiCandidate : jsstring :=
  lit "P@ss" ++ [55357%N; 56960%N] ++ lit "W" ++ [248%N] ++ lit "rd123".

(* ================================================================== *)
(** ** The view

    What the component renders from its state: the value of the input, the
    strength line with its colour, the feedback hints and the checklist.
    An element is recorded by the props the code computes for it; the
    static styles are left out. *)

(** The members of the union type of [level] are the strings themselves. *)
Definition levelString (l : Level) : jsstring :=
  match l with
  | Weak => lit "Weak"
  | Medium => lit "Medium"
  | Strong => lit "Strong"
  end.

(** [getColor]: a [switch] over the string with a [default] branch. *)
Definition getColor (level : jsstring) : jsstring :=
  if jsstring_eq_dec level (lit "Weak") then lit "red"
  else if jsstring_eq_dec level (lit "Medium") then lit "orange"
  else if jsstring_eq_dec level (lit "Strong") then lit "green"
  else lit "gray".

(** An entry of [const criteriaMap]. *)
Record CriteriaLabel := mkLabel {
  key : jsstring;
  label : jsstring
}.

Definition criteriaMap : list CriteriaLabel :=
  [ mkLabel (lit "length") (lit "Minimum Length (8)");
    mkLabel (lit "uppercase") (lit "Uppercase Letters");
    mkLabel (lit "lowercase") (lit "Lowercase Letters");
    mkLabel (lit "numbers") (lit "Numbers");
    mkLabel (lit "specialChars") (lit "Special Characters");
    mkLabel (lit "noRepeatedChars") (lit "No repeated characters");
    mkLabel (lit "noCommonPatterns") (lit "No common patterns") ].

(** The own properties of a [criteria] object, by name. *)
Definition criteriaEntries (c : StrengthCriteria) : list (jsstring * bool) :=
  [ (lit "length", length_ok c);
    (lit "uppercase", uppercase c);
    (lit "lowercase", lowercase c);
    (lit "numbers", numbers c);
    (lit "specialChars", specialChars c);
    (lit "noRepeatedChars", noRepeatedChars c);
    (lit "noCommonPatterns", noCommonPatterns c) ].

(** [criteria[key]]; [None] stands for [undefined]. *)
Definition getProperty (c : StrengthCriteria) (k : jsstring) : option bool :=
  match find (fun e => if jsstring_eq_dec (fst e) k then true else false)
             (criteriaEntries c) with
  | Some e => Some (snd e)
  | None => None
  end.

(** The truthiness the conditional operator sees. *)
Definition truthy (v : option bool) : bool :=
  match v with
  | Some b => b
  | None => false
  end.

(** A row of the checklist: its [testID], whether the circle gets
    [styles.circleActive], and its text. *)
Record CriteriaItem := mkItem {
  itemTestID : jsstring;
  circleActive : bool;
  criteriaText : jsstring
}.

(** [criteriaMap.map(({ key, label }) => ...)] *)
Definition renderCriteriaList (s : Strength) : list CriteriaItem :=
  map (fun e =>
         mkItem (lit "feedback-" ++ key e)
                (truthy (getProperty (criteria s) (key e)))
                (label e))
      criteriaMap.

(** A feedback line: its [testID] and its children. *)
Record FeedbackHint := mkHint {
  hintTestID : jsstring;
  hintChildren : list jsstring
}.

(** [array.map((x, idx) => ...)], counting from [idx]. *)
Fixpoint mapWithIndex {A B : Type} (f : A -> nat -> B) (l : list A) (idx : nat)
  : list B :=
  match l with
  | [] => []
  | x :: l' => f x idx :: mapWithIndex f l' (S idx)
  end.

(** The bullet U+2022. *)
Definition bulletChar : codeUnit := 8226%N.

(** The single line shown when there is no feedback. *)
Definition placeholderHint : FeedbackHint :=
  mkHint (lit "feedback-hint-0")
         [ bulletChar :: lit " Please enter a password" ].

(** [strength.feedback.length === 0 ? placeholder : strength.feedback.map(...)] *)
Definition renderFeedbackHints (s : Strength) : list FeedbackHint :=
  if (List.length (feedback s) =? 0)%nat
  then [ placeholderHint ]
  else mapWithIndex
         (fun fb idx =>
            mkHint (lit "feedback-hint-" ++ numberToString (Z.of_nat idx))
                   [ bulletChar :: lit " "; fb ])
         (feedback s) 0.

Record View := mkView {
  inputValue : jsstring;
  strengthColor : jsstring;
  strengthChildren : list jsstring;
  feedbackHints : list FeedbackHint;
  criteriaItems : list CriteriaItem
}.

(** The element tree returned by the component, for the state [st]. *)
Definition render (st : Component) : View :=
  {| inputValue := password st;
     strengthColor := getColor (levelString (level (strength st)));
     strengthChildren := [ lit "Strength: "; levelString (level (strength st)) ];
     feedbackHints := renderFeedbackHints (strength st);
     criteriaItems := renderCriteriaList (strength st) |}.

(** A configuration that enables every flag, for a given minimum length. *)
Definition strictProps (m : Z) : Props :=
  {| minLength := m;
     requireUppercase := true;
     requireLowercase := true;
     requireNumbers := true;
     requireSpecialChars := true;
     preventRepeatedChars := true;
     preventCommonPatterns := true |}.

(* ================================================================== *)
(** ** Facts about the string primitives *)

Lemma inRange_true lo hi c :
  inRange lo hi c = true <-> (lo <= c <= hi)%N.
Proof.
  unfold inRange. rewrite andb_true_iff, !N.leb_le. tauto.
Qed.

Lemma regexTest_true matchAt s :
  regexTest matchAt s = true <->
  exists pre rest, s = pre ++ rest /\ matchAt rest = true.
Proof.
  induction s as [|c s IH]; simpl.
  - rewrite orb_false_r. split.
    + intros H. exists [], []. auto.
    + intros (pre & rest & E & H).
      symmetry in E. apply app_eq_nil in E. destruct E; subst. exact H.
  - rewrite orb_true_iff, IH. split.
    + intros [H | (pre & rest & E & H)].
      * exists [], (c :: s). auto.
      * exists (c :: pre), rest. subst. auto.
    + intros (pre & rest & E & H). destruct pre as [|x pre]; simpl in E.
      * left. subst. exact H.
      * right. injection E as _ E. eauto.
Qed.

Lemma regexTest_matchClass cls s :
  regexTest (matchClass cls) s = true <-> exists c, In c s /\ cls c = true.
Proof.
  rewrite regexTest_true. split.
  - intros (pre & rest & E & H). destruct rest as [|c rest]; [discriminate|].
    exists c. subst. rewrite in_app_iff. simpl. auto.
  - intros (c & Hin & H). apply in_split in Hin as (pre & rest & E).
    exists pre, (c :: rest). auto.
Qed.

Lemma matchAnchoredStar_true cls s :
  matchAnchoredStar cls s = true <-> Forall (fun c => cls c = true) s.
Proof.
  unfold matchAnchoredStar. rewrite forallb_forall, Forall_forall. tauto.
Qed.

Lemma isAsciiOnly_true s :
  isAsciiOnly s = true <-> Forall (fun c => (c <= 127)%N) s.
Proof.
  unfold isAsciiOnly. rewrite matchAnchoredStar_true, !Forall_forall.
  split; intros H c Hc; specialize (H c Hc).
  - apply inRange_true in H. lia.
  - apply inRange_true. lia.
Qed.

Lemma isSpecialChar_true c :
  isSpecialChar c = true <-> In c specialCharSet.
Proof.
  unfold isSpecialChar. rewrite existsb_exists. split.
  - intros (x & Hin & E). apply N.eqb_eq in E. subst. exact Hin.
  - intros Hin. exists c. split; [exact Hin | apply N.eqb_refl].
Qed.

Lemma startsWith_true pat s :
  startsWith pat s = true <-> exists post, s = pat ++ post.
Proof.
  revert s. induction pat as [|p pat IH]; intros s; simpl.
  - split; eauto.
  - destruct s as [|c s].
    + split; [discriminate | intros (post & E); discriminate].
    + rewrite andb_true_iff, N.eqb_eq, IH. split.
      * intros (-> & post & ->). eauto.
      * intros (post & E). injection E as -> ->. eauto.
Qed.

Lemma includes_true s pat :
  includes s pat = true <-> Substring pat s.
Proof.
  unfold Substring. induction s as [|c s IH]; simpl.
  - rewrite orb_false_r, startsWith_true. split.
    + intros (post & E). exists [], post. exact E.
    + intros (pre & post & E). destruct pre; simpl in E.
      * eauto.
      * discriminate.
  - rewrite orb_true_iff, startsWith_true, IH. split.
    + intros [(post & E) | (pre & post & E)].
      * exists [], post. exact E.
      * exists (c :: pre), post. rewrite E. reflexivity.
    + intros (pre & post & E). destruct pre as [|x pre]; simpl in E.
      * left. eauto.
      * right. injection E as _ E. eauto.
Qed.

Lemma matchBackrefAtLeast_true n c s :
  matchBackrefAtLeast n c s = true <-> exists post, s = repeat c n ++ post.
Proof.
  revert s. induction n as [|n IH]; intros s; simpl.
  - split; eauto.
  - destruct s as [|x s].
    + split; [discriminate | intros (post & E); discriminate].
    + rewrite andb_true_iff, N.eqb_eq, IH. split.
      * intros (-> & post & ->). eauto.
      * intros (post & E). injection E as -> ->. eauto.
Qed.

Lemma matchRepeated_true s :
  matchRepeated s = true <->
  exists c post, isLineTerminator c = false /\ s = repeat c 3 ++ post.
Proof.
  unfold matchRepeated, dot. destruct s as [|c rest].
  - split; [discriminate | intros (c & post & _ & E); discriminate].
  - rewrite andb_true_iff, negb_true_iff, matchBackrefAtLeast_true. split.
    + intros (Hc & post & ->). exists c, post. auto.
    + intros (c' & post & Hc & E). simpl in E. injection E as -> ->.
      split; [exact Hc | exists post; reflexivity].
Qed.

(** A run of at least three contains a run of exactly three. *)
Lemma HasRun_three c n s :
  (3 <= n)%nat -> HasRun c n s -> HasRun c 3 s.
Proof.
  intros Hn (pre & post & E).
  exists pre, (repeat c (n - 3) ++ post).
  rewrite (app_assoc (repeat c 3)), <- repeat_app.
  replace (3 + (n - 3))%nat with n by lia. exact E.
Qed.

Lemma regexTest_matchRepeated s :
  regexTest matchRepeated s = true <->
  exists c n, isLineTerminator c = false /\ (3 <= n)%nat /\ HasRun c n s.
Proof.
  rewrite regexTest_true. split.
  - intros (pre & rest & E & H).
    apply matchRepeated_true in H as (c & post & Hc & ->).
    exists c, 3%nat. repeat split; [exact Hc | lia | exists pre, post; exact E].
  - intros (c & n & Hc & Hn & Hrun).
    destruct (HasRun_three Hn Hrun) as (pre & post & E).
    exists pre, (repeat c 3 ++ post). split; [exact E|].
    apply matchRepeated_true. eauto.
Qed.

(* ================================================================== *)
(** ** Facts about the printing of numbers *)

Lemma digitsValue_app D s a :
  digitsValue (D ++ s) a =
  match digitsValue D a with
  | Some v => digitsValue s v
  | None => None
  end.
Proof.
  revert a. induction D as [|c D IH]; intros a; simpl; [reflexivity|].
  destruct (inRange 48%N 57%N c); [apply IH | reflexivity].
Qed.

Lemma decimalDigits_value fuel :
  forall n acc,
    (n < 2 ^ N.of_nat fuel)%N -> (1 <= fuel)%nat ->
    exists d D,
      decimalDigits fuel n acc = (d :: D) ++ acc
      /\ (48 <= d <= 57)%N
      /\ (n <> 0%N -> d <> 48%N)
      /\ forall a, digitsValue (d :: D) a
                   = Some (a * 10 ^ N.of_nat (List.length (d :: D)) + n)%N.
Proof.
  induction fuel as [|fuel IH]; intros n acc Hn Hf; [lia|].
  cbn [decimalDigits].
  pose proof (N.div_mod n 10 ltac:(lia)) as Hdm.
  pose proof (N.mod_lt n 10 ltac:(lia)) as Hm.
  set (q := (n / 10)%N) in *. set (r := (n mod 10)%N) in *.
  clearbody q r.
  assert (inRange 48%N 57%N (48 + r)%N = true) as Hr
    by (apply inRange_true; lia).
  destruct (N.eqb_spec q 0) as [E|E].
  - exists (48 + r)%N, []. repeat split; try lia.
    intros a. cbn [digitsValue List.length]. rewrite Hr.
    f_equal. change (N.of_nat 1) with 1%N. rewrite N.pow_1_r. lia.
  - rewrite Nat2N.inj_succ, N.pow_succ_r' in Hn.
    assert (q < 2 ^ N.of_nat fuel)%N as Hn' by lia.
    assert (1 <= fuel)%nat as Hf'.
    { destruct fuel; [|lia]. simpl in Hn'. lia. }
    destruct (IH q ((48 + r)%N :: acc) Hn' Hf')
      as (d & D & ED & Hd & Hnz & Hval).
    exists d, (D ++ [(48 + r)%N]). split; [|split; [|split]].
    + rewrite ED. simpl. rewrite <- app_assoc. reflexivity.
    + exact Hd.
    + intros _. apply Hnz. exact E.
    + intros a. change (d :: D ++ [(48 + r)%N])
        with ((d :: D) ++ [(48 + r)%N]).
      rewrite digitsValue_app, Hval. cbn [digitsValue]. rewrite Hr.
      f_equal.
      replace (N.of_nat (List.length ((d :: D) ++ [(48 + r)%N])))
        with (N.succ (N.of_nat (List.length (d :: D))))
        by (rewrite length_app, Nat.add_1_r, Nat2N.inj_succ; reflexivity).
      rewrite N.pow_succ_r'.
      generalize (10 ^ N.of_nat (List.length (d :: D)))%N. intros p. nia.
Qed.

(** What is printed for an integer is the canonical decimal numeral that
    denotes it. *)
Lemma decimalValue_numberToString n :
  decimalValue (numberToString n) = Some n.
Proof.
  unfold numberToString.
  destruct (Z.eq_dec n 0) as [->|Hn0]; [reflexivity|].
  assert (Z.abs_N n <> 0%N) as Hm by lia.
  destruct (@decimalDigits_value (S (N.to_nat (N.size (Z.abs_N n))))
              (Z.abs_N n) []) as (d & D & ED & Hd & Hnz & Hval).
  { rewrite Nat2N.inj_succ, N2Nat.id, N.pow_succ_r'.
    pose proof (N.size_gt (Z.abs_N n)). lia. }
  { lia. }
  specialize (Hnz Hm). rewrite ED, app_nil_r.
  destruct (Z.ltb_spec n 0) as [Hneg|Hpos].
  - cbn [decimalValue]. rewrite N.eqb_refl.
    destruct (N.eqb_spec d 48) as [E|_]; [contradiction|].
    rewrite Hval. cbn [option_map]. f_equal. lia.
  - cbn [decimalValue].
    destruct (N.eqb_spec d 45) as [E|_]; [lia|].
    destruct (N.eqb_spec d 48) as [E|_]; [contradiction|].
    rewrite Hval. cbn [option_map]. f_equal. lia.
Qed.

(* ================================================================== *)
(** ** Score and level *)

Lemma countPassed_count values acc :
  countPassed values acc =
  (acc + Z.of_nat (count_occ bool_dec values true))%Z.
Proof.
  revert acc. unfold countPassed.
  induction values as [|v values IH]; intros acc; simpl.
  - lia.
  - rewrite IH. destruct v; simpl.
    + destruct (bool_dec true true) as [_|N]; [lia | contradiction].
    + destruct (bool_dec false true) as [E|_]; [discriminate | lia].
Qed.

Lemma Object_values_length c : List.length (Object_values c) = 7%nat.
Proof. reflexivity. Qed.

Lemma levelOf_Strong s : levelOf s = Strong <-> (6 <= s)%Z.
Proof.
  unfold levelOf.
  destruct (Z.leb_spec 6 s); destruct (Z.leb_spec 4 s);
    split; intros Hs; try discriminate; try lia; reflexivity.
Qed.

Lemma levelOf_Medium s : levelOf s = Medium <-> (4 <= s < 6)%Z.
Proof.
  unfold levelOf.
  destruct (Z.leb_spec 6 s); destruct (Z.leb_spec 4 s);
    split; intros Hs; try discriminate; try lia; reflexivity.
Qed.

Lemma levelOf_Weak s : levelOf s = Weak <-> (s < 4)%Z.
Proof.
  unfold levelOf.
  destruct (Z.leb_spec 6 s); destruct (Z.leb_spec 4 s);
    split; intros Hs; try discriminate; try lia; reflexivity.
Qed.

Lemma countPassed_sum a b c d e f g :
  countPassed [a; b; c; d; e; f; g] 0 =
  (Z.b2z a + Z.b2z b + Z.b2z c + Z.b2z d + Z.b2z e + Z.b2z f + Z.b2z g)%Z.
Proof.
  destruct a, b, c, d, e, f, g; reflexivity.
Qed.

Lemma score_sum rt props pwd :
  score (evaluatePassword rt props pwd) =
  (Z.b2z (length_ok (evalCriteria rt props pwd))
   + Z.b2z (uppercase (evalCriteria rt props pwd))
   + Z.b2z (lowercase (evalCriteria rt props pwd))
   + Z.b2z (numbers (evalCriteria rt props pwd))
   + Z.b2z (specialChars (evalCriteria rt props pwd))
   + Z.b2z (noRepeatedChars (evalCriteria rt props pwd))
   + Z.b2z (noCommonPatterns (evalCriteria rt props pwd)))%Z.
Proof.
  cbn [evaluatePassword score]. unfold Object_values.
  apply countPassed_sum.
Qed.

Lemma b2z_range b : (0 <= Z.b2z b <= 1)%Z.
Proof. destruct b; simpl; lia. Qed.

(** C1. For every password the score of [evaluatePassword] is the number
    of [true] entries among the seven criteria [length], [uppercase],
    [lowercase], [numbers], [specialChars], [noRepeatedChars] and
    [noCommonPatterns] of its result, each counting for one; it lies between
    0 and 7, and [maxScore] is the constant 7. *)
Theorem score_counts_passed_criteria
    (unicodeToLower : jsstring -> jsstring) (props : Props) (pwd : jsstring) :
  score (evaluatePassword unicodeToLower props pwd) =
    (Z.b2z (length_ok (criteria (evaluatePassword unicodeToLower props pwd)))
     + Z.b2z (uppercase (criteria (evaluatePassword unicodeToLower props pwd)))
     + Z.b2z (lowercase (criteria (evaluatePassword unicodeToLower props pwd)))
     + Z.b2z (numbers (criteria (evaluatePassword unicodeToLower props pwd)))
     + Z.b2z (specialChars (criteria (evaluatePassword unicodeToLower props pwd)))
     + Z.b2z (noRepeatedChars (criteria (evaluatePassword unicodeToLower props pwd)))
     + Z.b2z (noCommonPatterns (criteria (evaluatePassword unicodeToLower props pwd))))%Z
  /\ score (evaluatePassword unicodeToLower props pwd) =
       Z.of_nat
         (count_occ bool_dec
            [ length_ok (criteria (evaluatePassword unicodeToLower props pwd));
              uppercase (criteria (evaluatePassword unicodeToLower props pwd));
              lowercase (criteria (evaluatePassword unicodeToLower props pwd));
              numbers (criteria (evaluatePassword unicodeToLower props pwd));
              specialChars (criteria (evaluatePassword unicodeToLower props pwd));
              noRepeatedChars (criteria (evaluatePassword unicodeToLower props pwd));
              noCommonPatterns (criteria (evaluatePassword unicodeToLower props pwd)) ]
            true)
  /\ score (evaluatePassword unicodeToLower props pwd) =
       Z.of_nat
         (count_occ bool_dec
            (Object_values (criteria (evaluatePassword unicodeToLower props pwd)))
            true)
  /\ List.length
       (Object_values (criteria (evaluatePassword unicodeToLower props pwd)))
     = 7%nat
  /\ (0 <= score (evaluatePassword unicodeToLower props pwd) <= 7)%Z
  /\ maxScore (evaluatePassword unicodeToLower props pwd) = 7%Z
  /\ score (evaluatePassword unicodeToLower defaultProps
              (lit "SuperStrongPass123!@#")) = 7%Z
  /\ score (evaluatePassword unicodeToLower defaultProps (lit "Pass123")) = 5%Z
  /\ score (evaluatePassword unicodeToLower defaultProps (lit "aaa")) = 2%Z.
Proof.
  split; [apply score_sum|].
  assert (score (evaluatePassword unicodeToLower props pwd) =
          Z.of_nat
            (count_occ bool_dec
               (Object_values
                  (criteria (evaluatePassword unicodeToLower props pwd)))
               true)) as Hcount.
  { cbn [evaluatePassword score criteria]. rewrite countPassed_count. lia. }
  split; [exact Hcount|]. split; [exact Hcount|].
  pose proof (count_occ_bound bool_dec true
                (Object_values
                   (criteria (evaluatePassword unicodeToLower props pwd)))) as B.
  rewrite Object_values_length in B.
  split; [reflexivity|]. split; [lia|].
  repeat split.
Qed.

(** C2. For every password and every configuration the level is [Strong]
    exactly when the score is at least 6, [Medium] exactly when the score is
    at least 4 and below 6, and [Weak] in the remaining case; the thresholds
    are the same constants whatever the configuration. *)
Theorem level_follows_score_thresholds
    (unicodeToLower : jsstring -> jsstring) (props : Props) (pwd : jsstring) :
  (level (evaluatePassword unicodeToLower props pwd) = Strong <->
     (6 <= score (evaluatePassword unicodeToLower props pwd))%Z)
  /\ (level (evaluatePassword unicodeToLower props pwd) = Medium <->
        (4 <= score (evaluatePassword unicodeToLower props pwd) < 6)%Z)
  /\ (level (evaluatePassword unicodeToLower props pwd) = Weak <->
        ~ (6 <= score (evaluatePassword unicodeToLower props pwd))%Z /\
        ~ (4 <= score (evaluatePassword unicodeToLower props pwd) < 6)%Z).
Proof.
  cbn [evaluatePassword score level].
  rewrite levelOf_Strong, levelOf_Medium, levelOf_Weak.
  repeat split; intros; lia.
Qed.

(** C9. Under the default configuration the empty password fails the five
    content criteria, passes [noRepeatedChars] and [noCommonPatterns], and
    therefore scores 2 and is [Weak]. *)
Theorem empty_password_result (unicodeToLower : jsstring -> jsstring) :
  criteria (evaluatePassword unicodeToLower defaultProps (emptyString)) =
    {| length_ok := false;
       uppercase := false;
       lowercase := false;
       numbers := false;
       specialChars := false;
       noRepeatedChars := true;
       noCommonPatterns := true |}
  /\ score (evaluatePassword unicodeToLower defaultProps (emptyString)) = 2%Z
  /\ level (evaluatePassword unicodeToLower defaultProps (emptyString)) = Weak.
Proof.
  repeat split.
Qed.

(* ================================================================== *)
(** ** Independence from the configuration flags *)

Lemma evalCriteria_minLength rt p1 p2 pwd :
  minLength p1 = minLength p2 ->
  evalCriteria rt p1 pwd = evalCriteria rt p2 pwd.
Proof.
  intros E. unfold evalCriteria. rewrite E. reflexivity.
Qed.

(** C6. Two configurations with the same [minLength] give the same
    criteria, the same score and the same level for every password, however
    their six boolean flags differ: the flags reach the feedback list only. *)
Theorem flags_only_affect_feedback
    (unicodeToLower : jsstring -> jsstring) (p1 p2 : Props) (pwd : jsstring)
    (Hlen : minLength p1 = minLength p2) :
  criteria (evaluatePassword unicodeToLower p1 pwd) =
    criteria (evaluatePassword unicodeToLower p2 pwd)
  /\ score (evaluatePassword unicodeToLower p1 pwd) =
       score (evaluatePassword unicodeToLower p2 pwd)
  /\ level (evaluatePassword unicodeToLower p1 pwd) =
       level (evaluatePassword unicodeToLower p2 pwd)
  /\ maxScore (evaluatePassword unicodeToLower p1 pwd) =
       maxScore (evaluatePassword unicodeToLower p2 pwd).
Proof.
  cbn [evaluatePassword score level criteria maxScore].
  rewrite (evalCriteria_minLength unicodeToLower p1 p2 pwd Hlen).
  repeat split.
Qed.

Lemma flags_only_affect_feedback_witness :
  minLength defaultProps = minLength lenientProps
  /\ criteria (evaluatePassword keepCase defaultProps (lit "password123")) =
       criteria (evaluatePassword keepCase lenientProps (lit "password123"))
  /\ score (evaluatePassword keepCase defaultProps (lit "password123")) =
       score (evaluatePassword keepCase lenientProps (lit "password123"))
  /\ level (evaluatePassword keepCase defaultProps (lit "password123")) =
       level (evaluatePassword keepCase lenientProps (lit "password123"))
  /\ maxScore (evaluatePassword keepCase defaultProps (lit "password123")) =
       maxScore (evaluatePassword keepCase lenientProps (lit "password123")).
Proof.
  split; [reflexivity|].
  apply (flags_only_affect_feedback keepCase defaultProps lenientProps
           (lit "password123")).
  reflexivity.
Defined.

(* ================================================================== *)
(** ** The character-class criteria *)

(** C8. [specialChars] holds exactly when the password has a character of
    the literal set, and [numbers], [uppercase] and [lowercase] exactly when
    it has a character in 0-9, A-Z and a-z. *)
Theorem character_class_criteria
    (unicodeToLower : jsstring -> jsstring) (props : Props) (pwd : jsstring) :
  (specialChars (criteria (evaluatePassword unicodeToLower props pwd)) = true <->
     exists c, In c pwd /\
               In c (lit "!@#$%^&*(),.?" ++ [34%N] ++ lit ":{}|<>"))
  /\ (numbers (criteria (evaluatePassword unicodeToLower props pwd)) = true <->
        exists c, In c pwd /\
                  (N_of_ascii "0" <= c <= N_of_ascii "9")%N)
  /\ (uppercase (criteria (evaluatePassword unicodeToLower props pwd)) = true <->
        exists c, In c pwd /\
                  (N_of_ascii "A" <= c <= N_of_ascii "Z")%N)
  /\ (lowercase (criteria (evaluatePassword unicodeToLower props pwd)) = true <->
        exists c, In c pwd /\
                  (N_of_ascii "a" <= c <= N_of_ascii "z")%N).
Proof.
  cbn [evaluatePassword criteria evalCriteria
       specialChars numbers uppercase lowercase].
  rewrite !regexTest_matchClass.
  repeat split.
  - intros (c & Hin & H). exists c. split; [exact Hin|].
    apply isSpecialChar_true in H. exact H.
  - intros (c & Hin & H). exists c. split; [exact Hin|].
    apply isSpecialChar_true. exact H.
  - intros (c & Hin & H). exists c. split; [exact Hin|].
    apply inRange_true in H. exact H.
  - intros (c & Hin & H). exists c. split; [exact Hin|].
    apply inRange_true. exact H.
  - intros (c & Hin & H). exists c. split; [exact Hin|].
    apply inRange_true in H. exact H.
  - intros (c & Hin & H). exists c. split; [exact Hin|].
    apply inRange_true. exact H.
  - intros (c & Hin & H). exists c. split; [exact Hin|].
    apply inRange_true in H. exact H.
  - intros (c & Hin & H). exists c. split; [exact Hin|].
    apply inRange_true. exact H.
Qed.

(* ================================================================== *)
(** ** Repeated characters *)

(** C4, as the claim is written, fails on a run of line feeds: the password
    of three line feeds is a run of one character of length 3, yet its
    [noRepeatedChars] criterion is [true]. *)
Lemma line_feed_run_not_detected :
  ~ (noRepeatedChars
       (criteria (evaluatePassword keepCase defaultProps [10%N; 10%N; 10%N]))
     = true <->
     ~ exists c n, (3 <= n)%nat /\ HasRun c n [10%N; 10%N; 10%N]).
Proof.
  intros [H _]. apply H; [reflexivity|].
  exists 10%N, 3%nat. split; [lia|]. exists [], []. reflexivity.
Qed.

(** C4, amended.  [noRepeatedChars] holds exactly when the password has no
    run of 3 or more consecutive copies of one character that is not a line
    terminator (LF, CR, U+2028, U+2029); equality of characters is literal,
    so letters differing in case do not form a run. *)
Theorem noRepeatedChars_no_run_of_three
    (unicodeToLower : jsstring -> jsstring) (props : Props) (pwd : jsstring) :
  (noRepeatedChars (criteria (evaluatePassword unicodeToLower props pwd)) = true <->
     ~ exists c n,
         isLineTerminator c = false /\ (3 <= n)%nat /\ HasRun c n pwd)
  /\ (forall c, isLineTerminator c = false <->
                c <> 10%N /\ c <> 13%N /\ c <> 8232%N /\ c <> 8233%N)
  /\ noRepeatedChars
       (criteria (evaluatePassword unicodeToLower props (lit "aaaAAA111!!")))
     = false
  /\ noRepeatedChars
       (criteria (evaluatePassword unicodeToLower props (lit "aaA")))
     = true.
Proof.
  cbn [evaluatePassword criteria evalCriteria noRepeatedChars].
  split; [|split; [|split; reflexivity]].
  - rewrite negb_true_iff, <- not_true_iff_false, regexTest_matchRepeated.
    tauto.
  - intros c. unfold isLineTerminator.
    rewrite !orb_false_iff, !N.eqb_neq. tauto.
Qed.

(* ================================================================== *)
(** ** Common patterns *)

Lemma toLowerCase_ascii (unicodeToLower : jsstring -> jsstring) s :
  forallb isAscii s = true ->
  toLowerCase unicodeToLower s = map asciiToLower s.
Proof.
  intros H. unfold toLowerCase. rewrite H. reflexivity.
Qed.

Lemma some_includes_false patterns s :
  existsb (fun pattern => includes s pattern) patterns = false <->
  forall pattern, In pattern patterns -> ~ Substring pattern s.
Proof.
  rewrite <- not_true_iff_false, existsb_exists. split.
  - intros H pattern Hin Hsub. apply H. exists pattern.
    split; [exact Hin | apply includes_true; exact Hsub].
  - intros H (pattern & Hin & Hinc). apply includes_true in Hinc.
    exact (H pattern Hin Hinc).
Qed.

(** C7. [noCommonPatterns] holds exactly when the lowercased password
    contains no element of the blocklist as a substring.  For an ASCII
    password the lowercased password is the password with every letter A-Z
    replaced by the letter 32 code units above it, so the check does not
    depend on the case of letters.  For [password123] the criterion is
    [false] and, under the default configuration, the feedback has the
    common-patterns message; so it is for passwords spelling a blocklist
    entry in upper or mixed case. *)
Theorem noCommonPatterns_blocklist
    (unicodeToLower : jsstring -> jsstring) (props : Props) (pwd : jsstring) :
  (noCommonPatterns (criteria (evaluatePassword unicodeToLower props pwd)) = true <->
     forall pattern,
       In pattern [ lit "123456"; lit "password"; lit "qwerty"; lit "abc123";
                    lit "abcdefghijklmnopqrstuvwxyz"; lit "123456789" ] ->
       ~ Substring pattern (toLowerCase unicodeToLower pwd))
  /\ (Forall (fun c => (c <= 127)%N) pwd ->
      toLowerCase unicodeToLower pwd =
        map (fun c => if ((65 <=? c) && (c <=? 90))%N then (c + 32)%N else c) pwd)
  /\ (Forall (fun c => (c <= 127)%N) pwd ->
      (noCommonPatterns (criteria (evaluatePassword unicodeToLower props pwd)) = true <->
         forall pattern,
           In pattern [ lit "123456"; lit "password"; lit "qwerty"; lit "abc123";
                        lit "abcdefghijklmnopqrstuvwxyz"; lit "123456789" ] ->
           ~ Substring pattern
               (map (fun c => if ((65 <=? c) && (c <=? 90))%N
                              then (c + 32)%N else c) pwd)))
  /\ noCommonPatterns
       (criteria (evaluatePassword unicodeToLower props (lit "password123")))
     = false
  /\ In (lit "Avoid common patterns")
        (feedback (evaluatePassword unicodeToLower defaultProps
                     (lit "password123")))
  /\ noCommonPatterns
       (criteria (evaluatePassword unicodeToLower props (lit "PASSWORD123")))
     = false
  /\ noCommonPatterns
       (criteria (evaluatePassword unicodeToLower props (lit "MyQwErTy!")))
     = false
  /\ In (lit "Avoid common patterns")
        (feedback (evaluatePassword unicodeToLower defaultProps
                     (lit "xAbC123x")))
  /\ toLowerCase unicodeToLower (lit "AZ az@[`{09") = lit "az az@[`{09".
Proof.
  assert (noCommonPatterns (criteria (evaluatePassword unicodeToLower props pwd))
          = true <->
          forall pattern,
            In pattern commonPatterns ->
            ~ Substring pattern (toLowerCase unicodeToLower pwd)) as Hiff.
  { cbn [evaluatePassword criteria evalCriteria noCommonPatterns].
    rewrite negb_true_iff. apply some_includes_false. }
  assert (Forall (fun c => (c <= 127)%N) pwd ->
          toLowerCase unicodeToLower pwd =
          map (fun c => if ((65 <=? c) && (c <=? 90))%N then (c + 32)%N else c)
              pwd) as Hlow.
  { intros Hascii. apply toLowerCase_ascii.
    apply forallb_forall. intros c Hc.
    rewrite Forall_forall in Hascii. apply N.leb_le. exact (Hascii c Hc). }
  split; [exact Hiff|]. split; [exact Hlow|].
  split; [intros Hascii; rewrite <- (Hlow Hascii); exact Hiff|].
  split; [reflexivity|]. split; [vm_compute; tauto|].
  split; [reflexivity|]. split; [reflexivity|].
  split; [vm_compute; tauto | reflexivity].
Qed.

(* ================================================================== *)
(** ** Feedback *)

Lemma buildFeedback_rules props c :
  buildFeedback props c =
  specFeedback (feedbackRules (numberToString (minLength props)) props c).
Proof.
  unfold buildFeedback, specFeedback, feedbackRules, push, fires.
  cbn [filter enabled passed andb].
  destruct (negb (length_ok c));
    destruct (requireUppercase props && negb (uppercase c));
    destruct (requireLowercase props && negb (lowercase c));
    destruct (requireNumbers props && negb (numbers c));
    destruct (requireSpecialChars props && negb (specialChars c));
    destruct (preventRepeatedChars props && negb (noRepeatedChars c));
    destruct (preventCommonPatterns props && negb (noCommonPatterns c));
    reflexivity.
Qed.

(** C5. For a configuration whose [minLength] is a safe integer, the
    feedback list is the list of messages of the rules that fire, in the
    fixed order length, uppercase, lowercase, numbers, specialChars,
    noRepeatedChars, noCommonPatterns: a rule fires exactly when its
    criterion failed and its flag is enabled, the length rule having no
    flag; the number in the length message is the decimal numeral of
    [minLength]. *)
Theorem feedback_is_fired_rules_in_order
    (unicodeToLower : jsstring -> jsstring) (props : Props) (pwd : jsstring)
    (Hsafe : isSafeInteger (minLength props) = true) :
  (exists numeral,
      decimalValue numeral = Some (minLength props)
      /\ feedback (evaluatePassword unicodeToLower props pwd) =
           specFeedback
             (feedbackRules numeral props
                (criteria (evaluatePassword unicodeToLower props pwd))))
  /\ feedback (evaluatePassword unicodeToLower defaultProps emptyString) =
       [ lit "Minimum 8 characters"; lit "Add uppercase letters";
         lit "Add lowercase letters"; lit "Add numbers";
         lit "Add special characters" ]
  /\ feedback (evaluatePassword unicodeToLower lenientProps emptyString) =
       [ lit "Minimum 8 characters" ]
  /\ feedback (evaluatePassword unicodeToLower defaultProps (lit "aaa")) =
       [ lit "Minimum 8 characters"; lit "Add uppercase letters";
         lit "Add numbers"; lit "Add special characters";
         lit "Avoid repeated characters" ]
  /\ feedback (evaluatePassword unicodeToLower (strictProps 12) (lit "Pass123!")) =
       [ lit "Minimum 12 characters" ]
  /\ feedback (evaluatePassword unicodeToLower (strictProps 100) (lit "PASS")) =
       [ lit "Minimum 100 characters"; lit "Add lowercase letters";
         lit "Add numbers"; lit "Add special characters" ]
  /\ feedback (evaluatePassword unicodeToLower (strictProps 9007199254740991)
                 (lit "Pass123!")) =
       [ lit "Minimum 9007199254740991 characters" ]
  /\ feedback (evaluatePassword unicodeToLower (strictProps (-3)) (lit "Pass123!"))
     = [].
Proof.
  split; [|repeat split].
  exists (numberToString (minLength props)).
  split; [apply decimalValue_numberToString|].
  cbn [evaluatePassword feedback criteria].
  apply buildFeedback_rules.
Qed.

Lemma feedback_is_fired_rules_in_order_witness :
  isSafeInteger (minLength (strictProps 12)) = true
  /\ exists numeral,
       decimalValue numeral = Some (minLength (strictProps 12))
       /\ feedback (evaluatePassword keepCase (strictProps 12) (lit "pass")) =
            specFeedback
              (feedbackRules numeral (strictProps 12)
                 (criteria (evaluatePassword keepCase (strictProps 12)
                              (lit "pass")))).
Proof.
  split; [reflexivity|].
  apply (proj1 (feedback_is_fired_rules_in_order keepCase (strictProps 12)
                  (lit "pass") eq_refl)).
Defined.

(* ================================================================== *)
(** ** The input gate *)

Lemma accept_true candidate :
  accept candidate = true <-> wellFormedInput candidate.
Proof.
  unfold accept, rejects, wellFormedInput.
  rewrite negb_true_iff, orb_false_iff, negb_false_iff, isAsciiOnly_true.
  rewrite Nat.ltb_ge. tauto.
Qed.

Lemma handlePasswordChange_accept text st :
  handlePasswordChange text st =
  if accept text then setPassword text st else st.
Proof.
  unfold handlePasswordChange, accept. destruct (rejects text); reflexivity.
Qed.

Lemma changeText_rejected rt props text st :
  accept text = false -> changeText rt props text st = st.
Proof.
  intros H. unfold changeText. rewrite handlePasswordChange_accept, H.
  destruct (jsstring_eq_dec (password st) (password st)) as [_|N];
    [reflexivity | contradiction].
Qed.

(** C3. The gate adopts a candidate exactly when it has at most 25
    characters, all of them in the ASCII range 0-127; a rejected candidate
    leaves the component as it was, so the stored password is the previous
    one, and an adopted candidate is stored as it is.  25 letters [a] are
    adopted, 26 are not, and neither is the candidate with an emoji. *)
Theorem gate_accepts_short_ascii :
  (forall candidate,
      accept candidate = true <->
      (List.length candidate <= 25)%nat /\
      Forall (fun c => (c <= 127)%N) candidate)
  /\ (forall text st,
        password (handlePasswordChange text st) =
        if accept text then text else password st)
  /\ (forall text st,
        accept text = false -> handlePasswordChange text st = st)
  /\ (forall rt props text st,
        accept text = false -> changeText rt props text st = st)
  /\ accept (repeatChar (N_of_ascii "a") 25) = true
  /\ accept (repeatChar (N_of_ascii "a") 26) = false
  /\ accept emojiCandidate = false.
Proof.
  split; [exact accept_true|].
  split; [intros text st; rewrite handlePasswordChange_accept;
          destruct (accept text); reflexivity|].
  split; [intros text st H; rewrite handlePasswordChange_accept, H;
          reflexivity|].
  split; [exact changeText_rejected|].
  repeat split.
Qed.

(* ================================================================== *)
(** ** The invariant of the stored password *)

Lemma wellFormedInput_empty : wellFormedInput (emptyString).
Proof.
  split; [simpl; lia | constructor].
Qed.

Lemma handlePasswordChange_wellFormed text st :
  wellFormedInput (password st) ->
  wellFormedInput (password (handlePasswordChange text st)).
Proof.
  intros H. rewrite handlePasswordChange_accept.
  destruct (accept text) eqn:E; [|exact H].
  apply accept_true in E. exact E.
Qed.

Lemma runEffect_invariant rt props st :
  componentInvariant st -> componentInvariant (runEffect rt props st).
Proof.
  intros [Hp He]. split; [exact Hp|].
  cbn [runEffect evaluated]. apply Forall_app. split; [exact He|].
  constructor; [exact Hp | constructor].
Qed.

Lemma mount_invariant rt props : componentInvariant (mount rt props).
Proof.
  apply runEffect_invariant. split; [exact wellFormedInput_empty | constructor].
Qed.

Lemma changeText_invariant rt props text st :
  componentInvariant st -> componentInvariant (changeText rt props text st).
Proof.
  intros [Hp He].
  assert (componentInvariant (handlePasswordChange text st)) as Hst'.
  { split; [apply handlePasswordChange_wellFormed; exact Hp|].
    rewrite handlePasswordChange_accept.
    destruct (accept text); exact He. }
  unfold changeText.
  destruct (jsstring_eq_dec _ _); [exact Hst'|].
  apply runEffect_invariant. exact Hst'.
Qed.

Lemma reachable_invariant rt props st :
  reachable rt props st -> componentInvariant st.
Proof.
  induction 1 as [|st text _ IH].
  - apply mount_invariant.
  - apply changeText_invariant. exact IH.
Qed.

Lemma run_reachable rt props texts : reachable rt props (run rt props texts).
Proof.
  unfold run. generalize (reach_mount rt props).
  generalize (mount rt props). induction texts as [|text texts IH]; intros st H.
  - exact H.
  - simpl. apply IH. constructor. exact H.
Qed.

(** C10. The stored password always has at most 25 characters, all ASCII:
    the initial empty value has, every change event keeps it so, and in
    every state the component reaches, after any sequence of change events,
    [evaluatePassword] has only been called on such strings. *)
Theorem stored_password_invariant
    (unicodeToLower : jsstring -> jsstring) (props : Props) :
  wellFormedInput (password initialComponent)
  /\ wellFormedInput (password (mount unicodeToLower props))
  /\ (forall text st,
        wellFormedInput (password st) ->
        wellFormedInput (password (handlePasswordChange text st)))
  /\ (forall text st,
        wellFormedInput (password st) ->
        wellFormedInput (password (changeText unicodeToLower props text st)))
  /\ (forall st,
        reachable unicodeToLower props st ->
        wellFormedInput (password st) /\
        Forall wellFormedInput (evaluated st))
  /\ (forall texts,
        wellFormedInput (password (run unicodeToLower props texts)) /\
        Forall wellFormedInput (evaluated (run unicodeToLower props texts))).
Proof.
  split; [exact wellFormedInput_empty|].
  split; [exact wellFormedInput_empty|].
  split; [intros text st; apply handlePasswordChange_wellFormed|].
  split.
  - intros text st H. unfold changeText.
    destruct (jsstring_eq_dec _ _);
      apply handlePasswordChange_wellFormed; exact H.
  - split.
    + intros st H. exact (reachable_invariant H).
    + intros texts. exact (reachable_invariant (run_reachable _ _ texts)).
Qed.

(** After every event the displayed strength is the evaluation of the
    stored password: a rejected or unchanged candidate leaves both alone,
    an adopted one triggers the effect. *)
Lemma reachable_strength_current rt props st :
  reachable rt props st ->
  strength st = evaluatePassword rt props (password st).
Proof.
  induction 1 as [|st text _ IH].
  - reflexivity.
  - unfold changeText. destruct (jsstring_eq_dec _ _) as [E|_].
    + rewrite handlePasswordChange_accept in *.
      destruct (accept text); [|exact IH].
      cbn [setPassword password strength] in *. rewrite E. exact IH.
    + reflexivity.
Qed.

(* ================================================================== *)
(** ** The cases of the test suite *)

Example test_strength_levels (unicodeToLower : jsstring -> jsstring) :
  level (evaluatePassword unicodeToLower defaultProps (lit "pass")) = Weak
  /\ level (evaluatePassword unicodeToLower defaultProps (lit "Pass123")) = Medium
  /\ level (evaluatePassword unicodeToLower defaultProps (lit "Pass123!@#")) = Strong.
Proof. repeat split. Qed.

Example test_all_rules_met (unicodeToLower : jsstring -> jsstring) :
  score (evaluatePassword unicodeToLower defaultProps
           (lit "SuperStrongPass123!@#")) = 7%Z
  /\ level (evaluatePassword unicodeToLower defaultProps
              (lit "SuperStrongPass123!@#")) = Strong
  /\ feedback (evaluatePassword unicodeToLower defaultProps
                 (lit "SuperStrongPass123!@#")) = [].
Proof. repeat split. Qed.

Example test_detects_repeated_characters (unicodeToLower : jsstring -> jsstring) :
  In (lit "Avoid repeated characters")
     (feedback (evaluatePassword unicodeToLower defaultProps
                  (lit "aaaAAA111!!"))).
Proof. vm_compute. tauto. Qed.

Example test_rejects_emoji (unicodeToLower : jsstring -> jsstring) :
  password (changeText unicodeToLower defaultProps emojiCandidate
              (mount unicodeToLower defaultProps)) = emptyString.
Proof. reflexivity. Qed.

Example test_cleared_password_is_weak (unicodeToLower : jsstring -> jsstring) :
  level (strength (run unicodeToLower defaultProps
                     [lit "StrongPass123!"; emptyString])) = Weak.
Proof. reflexivity. Qed.

(* ================================================================== *)
(** ** More on the input gate *)

Lemma wellFormedInput_middle pre s post :
  wellFormedInput (pre ++ s ++ post) -> wellFormedInput s.
Proof.
  intros [Hlen Hall]. split.
  - rewrite !length_app in Hlen. lia.
  - apply Forall_app in Hall as [_ Hall].
    apply Forall_app in Hall as [Hall _]. exact Hall.
Qed.

(** X1. The gate is closed under taking a contiguous piece: when a candidate
    is adopted, so is every string obtained from it by dropping characters
    at its ends, so deleting or retyping a prefix is never blocked. *)
Theorem accept_contiguous_piece (pre s post : jsstring)
    (Hacc : accept (pre ++ s ++ post) = true) :
  accept s = true.
Proof.
  apply accept_true. apply accept_true in Hacc.
  exact (wellFormedInput_middle pre s post Hacc).
Qed.

Lemma accept_contiguous_piece_witness :
  accept (lit "Pa" ++ lit "ss12" ++ lit "3!") = true
  /\ accept (lit "ss12") = true.
Proof.
  split; [reflexivity|].
  apply (accept_contiguous_piece (lit "Pa") (lit "ss12") (lit "3!")).
  reflexivity.
Defined.

Lemma setPassword_same st : setPassword (password st) st = st.
Proof. destruct st; reflexivity. Qed.

(** X2. A change event is idempotent: delivering the same candidate a second
    time leaves the component, with its record of evaluations and
    notifications, exactly as the first delivery left it. *)
Theorem changeText_idempotent
    (unicodeToLower : jsstring -> jsstring) (props : Props)
    (text : jsstring) (st : Component) :
  changeText unicodeToLower props text
    (changeText unicodeToLower props text st)
  = changeText unicodeToLower props text st.
Proof.
  destruct (accept text) eqn:Hacc.
  - assert (password (changeText unicodeToLower props text st) = text) as Hp.
    { unfold changeText. rewrite handlePasswordChange_accept, Hacc.
      destruct (jsstring_eq_dec _ _); reflexivity. }
    set (st1 := changeText unicodeToLower props text st) in *.
    pose proof (setPassword_same st1) as Hs. rewrite Hp in Hs.
    unfold changeText. rewrite handlePasswordChange_accept, Hacc, Hs.
    destruct (jsstring_eq_dec (password st1) (password st1)) as [_|N];
      [reflexivity | contradiction].
  - rewrite !(changeText_rejected unicodeToLower props text _ Hacc).
    reflexivity.
Qed.

(* ================================================================== *)
(** ** The effect and its record *)

Lemma last_snoc (A : Type) (l : list A) (x d : A) : last (l ++ [x]) d = x.
Proof.
  induction l as [|y l IH]; [reflexivity|].
  simpl. destruct (l ++ [x]) eqn:E; [|exact IH].
  destruct l; discriminate.
Qed.

Lemma reachable_record rt props st :
  reachable rt props st ->
  notified st = map (evaluatePassword rt props) (evaluated st)
  /\ last (evaluated st) emptyString = password st
  /\ evaluated st <> [].
Proof.
  assert (forall s,
             notified s = map (evaluatePassword rt props) (evaluated s) ->
             let s' := runEffect rt props s in
             notified s' = map (evaluatePassword rt props) (evaluated s')
             /\ last (evaluated s') emptyString = password s'
             /\ evaluated s' <> []) as Heff.
  { intros s Hn. cbn [runEffect notified evaluated password].
    rewrite map_app, Hn, last_snoc. repeat split.
    intros E. apply app_eq_nil in E as [_ E]. discriminate. }
  induction 1 as [|st text _ (Hn & Hl & He)].
  - apply Heff. reflexivity.
  - unfold changeText. destruct (jsstring_eq_dec _ _) as [E|_].
    + rewrite handlePasswordChange_accept in *.
      destruct (accept text); [|auto].
      cbn [setPassword password notified evaluated] in *.
      rewrite E. auto.
    + apply Heff. rewrite handlePasswordChange_accept.
      destruct (accept text); exact Hn.
Qed.

(** X3. After mounting and any sequence of change events the displayed
    strength is the evaluation of the stored password, the callback has been
    handed exactly the results of the evaluations made, in order, and the
    last string evaluated is the stored password. *)
Theorem effect_keeps_strength_in_step
    (unicodeToLower : jsstring -> jsstring) (props : Props)
    (texts : list jsstring) :
  strength (run unicodeToLower props texts) =
    evaluatePassword unicodeToLower props
      (password (run unicodeToLower props texts))
  /\ notified (run unicodeToLower props texts) =
       map (evaluatePassword unicodeToLower props)
           (evaluated (run unicodeToLower props texts))
  /\ last (evaluated (run unicodeToLower props texts)) emptyString =
       password (run unicodeToLower props texts)
  /\ evaluated (run unicodeToLower props texts) <> [].
Proof.
  pose proof (run_reachable unicodeToLower props texts) as R.
  split; [exact (reachable_strength_current R)|].
  exact (reachable_record R).
Qed.

Lemma snoc_adjacent (A : Type) (l pre post : list A) (p x y d : A) :
  l ++ [p] = pre ++ x :: y :: post ->
  (exists post', l = pre ++ x :: y :: post')
  \/ (y = p /\ last l d = x).
Proof.
  intros E. destruct (exists_last (l := x :: y :: post)) as (m & z & Em);
    [discriminate|].
  rewrite Em, app_assoc in E. apply app_inj_tail in E as [El Ez]. subst z.
  destruct post as [|w post].
  - right. change [x; y] with ([x] ++ [y]) in Em.
    apply app_inj_tail in Em as [Em Ey]. subst.
    split; [reflexivity|]. apply last_snoc.
  - left. destruct (exists_last (l := w :: post)) as (m' & z' & Em');
      [discriminate|].
    rewrite Em' in Em.
    change (x :: y :: m' ++ [z']) with ((x :: y :: m') ++ [z']) in Em.
    apply app_inj_tail in Em as [Em _]. subst. eauto.
Qed.

Lemma reachable_no_adjacent_repeat rt props st :
  reachable rt props st ->
  forall pre x y post, evaluated st = pre ++ x :: y :: post -> x <> y.
Proof.
  induction 1 as [|st text R IH]; intros pre x y post E.
  - destruct pre as [|a [|b pre]]; discriminate.
  - unfold changeText in E. destruct (jsstring_eq_dec _ _) as [Ep|Np].
    + rewrite handlePasswordChange_accept in E.
      destruct (accept text); exact (IH pre x y post E).
    + destruct (reachable_record R) as (_ & Hl & _).
      rewrite handlePasswordChange_accept in *.
      destruct (accept text); [|contradiction].
      cbn [runEffect setPassword evaluated password] in *.
      apply snoc_adjacent with (d := emptyString) in E
        as [(post' & E) | (Ey & Ex)].
      * exact (IH pre x y post' E).
      * subst. rewrite Hl. intros Heq. apply Np. symmetry. exact Heq.
Qed.

Lemma fold_changeText_evaluated_length rt props texts st :
  (List.length
     (evaluated (fold_left (fun s text => changeText rt props text s) texts st))
   <= List.length (evaluated st) + List.length texts)%nat.
Proof.
  revert st. induction texts as [|text texts IH]; intros st; simpl; [lia|].
  specialize (IH (changeText rt props text st)).
  assert (List.length (evaluated (changeText rt props text st))
          <= S (List.length (evaluated st)))%nat as Hstep.
  { unfold changeText. rewrite handlePasswordChange_accept.
    destruct (jsstring_eq_dec _ _); destruct (accept text);
      cbn [runEffect setPassword evaluated]; rewrite ?length_app; simpl; lia. }
  lia.
Qed.

(** X4. The password is never evaluated twice in a row on the same value:
    two consecutive calls of [evaluatePassword] have different arguments, and
    there is at most one call per change event besides the one on mount. *)
Theorem no_redundant_evaluation
    (unicodeToLower : jsstring -> jsstring) (props : Props)
    (texts : list jsstring) :
  (forall pre x y post,
      evaluated (run unicodeToLower props texts) = pre ++ x :: y :: post ->
      x <> y)
  /\ (List.length (evaluated (run unicodeToLower props texts))
      <= 1 + List.length texts)%nat.
Proof.
  split.
  - exact (reachable_no_adjacent_repeat (run_reachable unicodeToLower props texts)).
  - unfold run.
    pose proof (fold_changeText_evaluated_length unicodeToLower props texts
                  (mount unicodeToLower props)) as H.
    exact H.
Qed.

(* ================================================================== *)
(** ** Stored passwords and the case tables of the runtime *)

Lemma wellFormedInput_isAscii s :
  wellFormedInput s -> forallb isAscii s = true.
Proof.
  intros [_ H]. apply forallb_forall. intros c Hc.
  rewrite Forall_forall in H. apply N.leb_le. exact (H c Hc).
Qed.

Lemma evaluatePassword_ascii rt rt' props pwd :
  forallb isAscii pwd = true ->
  evaluatePassword rt props pwd = evaluatePassword rt' props pwd.
Proof.
  intros H. unfold evaluatePassword, evalCriteria.
  rewrite !(toLowerCase_ascii _ _ H). reflexivity.
Qed.

Lemma changeText_runtime rt rt' props text st :
  changeText rt props text st = changeText rt' props text st.
Proof.
  unfold changeText. rewrite handlePasswordChange_accept.
  destruct (accept text) eqn:Hacc.
  - destruct (jsstring_eq_dec _ _); [reflexivity|].
    unfold runEffect. cbn [setPassword password evaluated notified].
    apply accept_true, wellFormedInput_isAscii in Hacc.
    rewrite (evaluatePassword_ascii rt rt' props text Hacc). reflexivity.
  - destruct (jsstring_eq_dec _ _); [reflexivity | contradiction].
Qed.

(** X5. The component does not depend on how the runtime lowercases
    non-ASCII text: since only ASCII strings get past the gate, any two case
    conversions give the same state, record of calls and view after the
    same events. *)
Theorem component_independent_of_case_tables
    (lower1 lower2 : jsstring -> jsstring) (props : Props)
    (texts : list jsstring) :
  run lower1 props texts = run lower2 props texts
  /\ render (run lower1 props texts) = render (run lower2 props texts).
Proof.
  assert (run lower1 props texts = run lower2 props texts) as E.
  { unfold run.
    assert (mount lower1 props = mount lower2 props) as Em.
    { unfold mount, runEffect.
      rewrite (evaluatePassword_ascii lower1 lower2 props
                 (password initialComponent) eq_refl).
      reflexivity. }
    rewrite Em. generalize (mount lower2 props).
    induction texts as [|text texts IH]; intros st; simpl; [reflexivity|].
    rewrite (changeText_runtime lower1 lower2). apply IH. }
  split; [exact E | rewrite E; reflexivity].
Qed.

(* ================================================================== *)
(** ** Relations between the criteria, the score and the feedback *)

Lemma commonPattern_head pattern :
  In pattern commonPatterns ->
  exists p rest,
    pattern = p :: rest
    /\ ((48 <= p <= 57)%N \/ (97 <= p <= 122)%N).
Proof.
  unfold commonPatterns. simpl.
  intros [<-|[<-|[<-|[<-|[<-|[<-|[]]]]]]];
    cbv [lit list_ascii_of_string map N_of_ascii N_of_digits];
    cbn [N.add N.mul Pos.add Pos.mul Pos.succ];
    eexists; eexists; (split; [reflexivity | lia]).
Qed.

Lemma asciiToLower_digit c p :
  asciiToLower c = p -> (48 <= p <= 57)%N -> c = p.
Proof.
  unfold asciiToLower. destruct (inRange 65%N 90%N c) eqn:E; [|auto].
  apply inRange_true in E. lia.
Qed.

Lemma asciiToLower_letter c p :
  asciiToLower c = p -> (97 <= p <= 122)%N ->
  (65 <= c <= 90)%N \/ (97 <= c <= 122)%N.
Proof.
  unfold asciiToLower. destruct (inRange 65%N 90%N c) eqn:E.
  - apply inRange_true in E. auto.
  - intros <-. auto.
Qed.

(** An ASCII password that trips the blocklist has a digit or a letter. *)
Lemma common_pattern_needs_class rt props pwd :
  forallb isAscii pwd = true ->
  noCommonPatterns (evalCriteria rt props pwd) = false ->
  numbers (evalCriteria rt props pwd) = true
  \/ uppercase (evalCriteria rt props pwd) = true
  \/ lowercase (evalCriteria rt props pwd) = true.
Proof.
  intros Hascii H. cbn [evalCriteria noCommonPatterns] in H.
  rewrite negb_false_iff, (toLowerCase_ascii _ _ Hascii) in H.
  apply existsb_exists in H as (pattern & Hin & Hinc).
  apply includes_true in Hinc as (pre & post & E).
  apply commonPattern_head in Hin as (p & rest & -> & Hp).
  assert (In p (map asciiToLower pwd)) as Hp_in.
  { rewrite E, !in_app_iff. simpl. auto. }
  apply in_map_iff in Hp_in as (c & Hc & Hc_in).
  cbn [evalCriteria numbers uppercase lowercase].
  rewrite !regexTest_matchClass.
  destruct Hp as [Hd | Hl].
  - left. exists c. split; [exact Hc_in|].
    apply inRange_true. rewrite (asciiToLower_digit _ Hc Hd). exact Hd.
  - destruct (asciiToLower_letter _ Hc Hl) as [Hu | Hlo].
    + right. left. exists c. split; [exact Hc_in | apply inRange_true; exact Hu].
    + right. right. exists c. split; [exact Hc_in | apply inRange_true; exact Hlo].
Qed.

Lemma score_positive_ascii rt props pwd :
  forallb isAscii pwd = true ->
  (1 <= score (evaluatePassword rt props pwd))%Z.
Proof.
  intros Hascii. rewrite score_sum.
  pose proof (b2z_range (length_ok (evalCriteria rt props pwd))).
  pose proof (b2z_range (uppercase (evalCriteria rt props pwd))).
  pose proof (b2z_range (lowercase (evalCriteria rt props pwd))).
  pose proof (b2z_range (numbers (evalCriteria rt props pwd))).
  pose proof (b2z_range (specialChars (evalCriteria rt props pwd))).
  pose proof (b2z_range (noRepeatedChars (evalCriteria rt props pwd))).
  destruct (noCommonPatterns (evalCriteria rt props pwd)) eqn:Hc.
  - cbn [Z.b2z]. lia.
  - destruct (common_pattern_needs_class rt props pwd Hascii Hc)
      as [E | [E | E]]; rewrite E in *; cbn [Z.b2z] in *; lia.
Qed.

(** X6. The score shown after mounting is never 0, whatever the
    configuration and the events: every password the gate lets through
    passes at least one criterion, because tripping the blocklist takes a
    digit or a letter.  The all-false strength the component starts from is
    therefore never the result of an evaluation of a stored password. *)
Theorem displayed_score_is_positive
    (unicodeToLower : jsstring -> jsstring) (props : Props)
    (texts : list jsstring) :
  (1 <= score (strength (run unicodeToLower props texts)))%Z
  /\ strength (run unicodeToLower props texts) <> initialStrength.
Proof.
  pose proof (run_reachable unicodeToLower props texts) as R.
  assert (1 <= score (strength (run unicodeToLower props texts)))%Z as H.
  { rewrite (reachable_strength_current R).
    apply score_positive_ascii, wellFormedInput_isAscii.
    exact (proj1 (reachable_invariant R)). }
  split; [exact H|].
  intros E. rewrite E in H. simpl in H. lia.
Qed.

Lemma buildFeedback_length props c :
  Z.of_nat (List.length (buildFeedback props c)) =
  (Z.b2z (negb (length_ok c))
   + Z.b2z (requireUppercase props && negb (uppercase c))
   + Z.b2z (requireLowercase props && negb (lowercase c))
   + Z.b2z (requireNumbers props && negb (numbers c))
   + Z.b2z (requireSpecialChars props && negb (specialChars c))
   + Z.b2z (preventRepeatedChars props && negb (noRepeatedChars c))
   + Z.b2z (preventCommonPatterns props && negb (noCommonPatterns c)))%Z.
Proof.
  unfold buildFeedback, push.
  destruct (negb (length_ok c));
    destruct (requireUppercase props && negb (uppercase c));
    destruct (requireLowercase props && negb (lowercase c));
    destruct (requireNumbers props && negb (numbers c));
    destruct (requireSpecialChars props && negb (specialChars c));
    destruct (preventRepeatedChars props && negb (noRepeatedChars c));
    destruct (preventCommonPatterns props && negb (noCommonPatterns c));
    reflexivity.
Qed.

Lemma b2z_gate flag b : (Z.b2z (flag && negb b) + Z.b2z b <= 1)%Z.
Proof. destruct flag, b; simpl; lia. Qed.

Lemma b2z_gate_on b : (Z.b2z (true && negb b) + Z.b2z b = 1)%Z.
Proof. destruct b; reflexivity. Qed.

Lemma strict_feedback_plus_score rt m pwd :
  (Z.of_nat (List.length (feedback (evaluatePassword rt (strictProps m) pwd)))
   + score (evaluatePassword rt (strictProps m) pwd) = 7)%Z.
Proof.
  rewrite score_sum. cbn [evaluatePassword feedback].
  rewrite buildFeedback_length.
  cbn [strictProps requireUppercase requireLowercase requireNumbers
       requireSpecialChars preventRepeatedChars preventCommonPatterns].
  pose proof (b2z_gate_on (length_ok (evalCriteria rt (strictProps m) pwd))).
  pose proof (b2z_gate_on (uppercase (evalCriteria rt (strictProps m) pwd))).
  pose proof (b2z_gate_on (lowercase (evalCriteria rt (strictProps m) pwd))).
  pose proof (b2z_gate_on (numbers (evalCriteria rt (strictProps m) pwd))).
  pose proof (b2z_gate_on (specialChars (evalCriteria rt (strictProps m) pwd))).
  pose proof (b2z_gate_on (noRepeatedChars (evalCriteria rt (strictProps m) pwd))).
  pose proof (b2z_gate_on (noCommonPatterns (evalCriteria rt (strictProps m) pwd))).
  cbn [andb] in *. lia.
Qed.

(** X7. The number of feedback messages never exceeds the number of failed
    criteria, 7 minus the score; when all six flags are enabled the two are
    equal, so the feedback is empty exactly when the score is 7. *)
Theorem feedback_count_and_score
    (unicodeToLower : jsstring -> jsstring) (props : Props) (m : Z)
    (pwd : jsstring) :
  (Z.of_nat (List.length (feedback (evaluatePassword unicodeToLower props pwd)))
   + score (evaluatePassword unicodeToLower props pwd) <= 7)%Z
  /\ (Z.of_nat
        (List.length
           (feedback (evaluatePassword unicodeToLower (strictProps m) pwd)))
      + score (evaluatePassword unicodeToLower (strictProps m) pwd) = 7)%Z
  /\ (feedback (evaluatePassword unicodeToLower (strictProps m) pwd) = [] <->
      score (evaluatePassword unicodeToLower (strictProps m) pwd) = 7%Z).
Proof.
  assert (forall p,
             (Z.of_nat (List.length (feedback (evaluatePassword unicodeToLower p pwd)))
              + score (evaluatePassword unicodeToLower p pwd) <= 7)%Z) as Hle.
  { intros p. rewrite score_sum. cbn [evaluatePassword feedback].
    rewrite buildFeedback_length.
    pose proof (b2z_gate true (length_ok (evalCriteria unicodeToLower p pwd))).
    pose proof (b2z_gate (requireUppercase p) (uppercase (evalCriteria unicodeToLower p pwd))).
    pose proof (b2z_gate (requireLowercase p) (lowercase (evalCriteria unicodeToLower p pwd))).
    pose proof (b2z_gate (requireNumbers p) (numbers (evalCriteria unicodeToLower p pwd))).
    pose proof (b2z_gate (requireSpecialChars p) (specialChars (evalCriteria unicodeToLower p pwd))).
    pose proof (b2z_gate (preventRepeatedChars p) (noRepeatedChars (evalCriteria unicodeToLower p pwd))).
    pose proof (b2z_gate (preventCommonPatterns p) (noCommonPatterns (evalCriteria unicodeToLower p pwd))).
    cbn [andb] in *. lia. }
  pose proof (strict_feedback_plus_score unicodeToLower m pwd) as Heq.
  split; [apply Hle|]. split; [exact Heq|].
  split.
  - intros E. rewrite E in Heq. cbn [List.length Z.of_nat] in Heq. lia.
  - intros E. rewrite E in Heq.
    destruct (feedback (evaluatePassword unicodeToLower (strictProps m) pwd));
      [reflexivity | cbn [List.length] in Heq; lia].
Qed.

(* ================================================================== *)
(** ** How the criteria react to longer passwords *)

Lemma regexTest_matchClass_extend cls pre s post :
  regexTest (matchClass cls) s = true ->
  regexTest (matchClass cls) (pre ++ s ++ post) = true.
Proof.
  rewrite !regexTest_matchClass. intros (c & Hin & H).
  exists c. rewrite !in_app_iff. auto.
Qed.

Lemma HasRun_extend c n pre s post :
  HasRun c n s -> HasRun c n (pre ++ s ++ post).
Proof.
  intros (a & b & ->). exists (pre ++ a), (b ++ post).
  rewrite <- !app_assoc. reflexivity.
Qed.

(** X8. Putting characters before or after a password never loses a
    character-class criterion or the length criterion, and never repairs a
    repeated run. *)
Theorem criteria_under_extension
    (unicodeToLower : jsstring -> jsstring) (props : Props)
    (pre pwd post : jsstring) :
  (length_ok (criteria (evaluatePassword unicodeToLower props pwd)) = true ->
   length_ok (criteria (evaluatePassword unicodeToLower props (pre ++ pwd ++ post)))
   = true)
  /\ (uppercase (criteria (evaluatePassword unicodeToLower props pwd)) = true ->
      uppercase (criteria (evaluatePassword unicodeToLower props (pre ++ pwd ++ post)))
      = true)
  /\ (lowercase (criteria (evaluatePassword unicodeToLower props pwd)) = true ->
      lowercase (criteria (evaluatePassword unicodeToLower props (pre ++ pwd ++ post)))
      = true)
  /\ (numbers (criteria (evaluatePassword unicodeToLower props pwd)) = true ->
      numbers (criteria (evaluatePassword unicodeToLower props (pre ++ pwd ++ post)))
      = true)
  /\ (specialChars (criteria (evaluatePassword unicodeToLower props pwd)) = true ->
      specialChars (criteria (evaluatePassword unicodeToLower props (pre ++ pwd ++ post)))
      = true)
  /\ (noRepeatedChars (criteria (evaluatePassword unicodeToLower props pwd)) = false ->
      noRepeatedChars
        (criteria (evaluatePassword unicodeToLower props (pre ++ pwd ++ post)))
      = false).
Proof.
  cbn [evaluatePassword criteria evalCriteria length_ok uppercase lowercase
       numbers specialChars noRepeatedChars].
  split; [|repeat split; try apply regexTest_matchClass_extend].
  - rewrite !Z.leb_le, !length_app. lia.
  - rewrite !negb_false_iff, !regexTest_matchRepeated.
    intros (c & n & Hc & Hn & Hrun). exists c, n.
    repeat split; [exact Hc | exact Hn | apply HasRun_extend; exact Hrun].
Qed.

(* ================================================================== *)
(** ** What a level needs *)

Lemma three_distinct_members (l : jsstring) (a b c : codeUnit) :
  In a l -> In b l -> In c l -> a <> b -> a <> c -> b <> c ->
  (3 <= List.length l)%nat.
Proof.
  intros Ha Hb Hc Hab Hac Hbc.
  assert (NoDup [a; b; c]) as Hnd.
  { repeat constructor; simpl; intuition congruence. }
  assert (incl [a; b; c] l) as Hincl.
  { intros x [<-|[<-|[<-|[]]]]; assumption. }
  exact (NoDup_incl_length Hnd Hincl).
Qed.

Lemma specialChar_codes c :
  In c specialCharSet ->
  (c < 48 \/ 57 < c)%N /\ (c < 65 \/ 90 < c)%N /\ (c < 97 \/ 122 < c)%N.
Proof.
  unfold specialCharSet.
  cbv [lit list_ascii_of_string map N_of_ascii N_of_digits app].
  cbn [N.add N.mul Pos.add Pos.mul Pos.succ].
  simpl. intros H.
  repeat (destruct H as [<-|H]; [lia|]). contradiction.
Qed.

(** X9. A password can only be rated [Strong] if it has at least three
    characters, whatever the configuration: a score of 6 needs three of the
    four character classes, and these are pairwise disjoint. *)
Theorem strong_password_has_three_characters
    (unicodeToLower : jsstring -> jsstring) (props : Props) (pwd : jsstring)
    (Hstrong : level (evaluatePassword unicodeToLower props pwd) = Strong) :
  (3 <= List.length pwd)%nat.
Proof.
  revert Hstrong.
  cbn [evaluatePassword level]. rewrite levelOf_Strong.
  change (countPassed (Object_values (evalCriteria unicodeToLower props pwd)) 0)
    with (score (evaluatePassword unicodeToLower props pwd)).
  rewrite score_sum.
  pose proof (b2z_range (length_ok (evalCriteria unicodeToLower props pwd))).
  pose proof (b2z_range (noRepeatedChars (evalCriteria unicodeToLower props pwd))).
  pose proof (b2z_range (noCommonPatterns (evalCriteria unicodeToLower props pwd))).
  destruct (uppercase (evalCriteria unicodeToLower props pwd)) eqn:Hu;
    destruct (lowercase (evalCriteria unicodeToLower props pwd)) eqn:Hl;
    destruct (numbers (evalCriteria unicodeToLower props pwd)) eqn:Hn;
    destruct (specialChars (evalCriteria unicodeToLower props pwd)) eqn:Hs;
    cbn [Z.b2z]; intros Hscore; try lia;
    cbn [evalCriteria uppercase lowercase numbers specialChars] in Hu, Hl, Hn, Hs;
    repeat match goal with
      | H : regexTest (matchClass _) _ = true |- _ =>
          apply regexTest_matchClass in H as (? & ? & H)
      | H : inRange _ _ _ = true |- _ => apply inRange_true in H
      | H : isSpecialChar _ = true |- _ =>
          apply isSpecialChar_true, specialChar_codes in H
      end.
  all: match goal with
       | Ha : In ?a ?l, Hb : In ?b ?l, Hc : In ?c ?l |- _ =>
           apply (@three_distinct_members l a b c Ha Hb Hc); lia
       end.
Qed.

Lemma strong_password_has_three_characters_witness :
  level (evaluatePassword keepCase (strictProps 3) (lit "aA1")) = Strong
  /\ (3 <= List.length (lit "aA1"))%nat.
Proof.
  split; [reflexivity|].
  apply (strong_password_has_three_characters keepCase (strictProps 3)
           (lit "aA1")).
  reflexivity.
Defined.

(* ================================================================== *)
(** ** More on the blocklist *)

Lemma asciiToLower_ascii c : isAscii c = true -> isAscii (asciiToLower c) = true.
Proof.
  unfold isAscii, asciiToLower. rewrite !N.leb_le.
  destruct (inRange 65%N 90%N c) eqn:E; [|auto].
  apply inRange_true in E. lia.
Qed.

Lemma asciiToLower_idempotent c : asciiToLower (asciiToLower c) = asciiToLower c.
Proof.
  unfold asciiToLower. destruct (inRange 65%N 90%N c) eqn:E.
  - destruct (inRange 65%N 90%N (c + 32)%N) eqn:E'; [|reflexivity].
    apply inRange_true in E, E'. lia.
  - rewrite E. reflexivity.
Qed.

Lemma toLowerCase_idempotent_ascii rt pwd :
  forallb isAscii pwd = true ->
  toLowerCase rt (map asciiToLower pwd) = toLowerCase rt pwd.
Proof.
  intros H. rewrite (toLowerCase_ascii rt pwd H).
  rewrite toLowerCase_ascii.
  - rewrite map_map. apply map_ext. exact asciiToLower_idempotent.
  - rewrite forallb_forall in *. intros c Hc.
    apply in_map_iff in Hc as (c0 & <- & Hc0).
    apply asciiToLower_ascii. exact (H c0 Hc0).
Qed.

(** X10. For an ASCII password the blocklist check ignores letter case: the
    password and its lowercased form get the same [noCommonPatterns], and so
    do any two ASCII passwords that differ only in the case of letters. *)
Theorem noCommonPatterns_ignores_case
    (unicodeToLower : jsstring -> jsstring) (props : Props) (pwd : jsstring)
    (Hascii : forallb isAscii pwd = true) :
  noCommonPatterns
    (criteria (evaluatePassword unicodeToLower props (map asciiToLower pwd)))
  = noCommonPatterns (criteria (evaluatePassword unicodeToLower props pwd))
  /\ forall other,
       forallb isAscii other = true ->
       map asciiToLower other = map asciiToLower pwd ->
       noCommonPatterns (criteria (evaluatePassword unicodeToLower props other))
       = noCommonPatterns (criteria (evaluatePassword unicodeToLower props pwd)).
Proof.
  cbn [evaluatePassword criteria evalCriteria noCommonPatterns].
  split.
  - rewrite (toLowerCase_idempotent_ascii unicodeToLower pwd Hascii).
    reflexivity.
  - intros other Ho E.
    rewrite (toLowerCase_ascii unicodeToLower other Ho), E,
      <- (toLowerCase_ascii unicodeToLower pwd Hascii).
    reflexivity.
Qed.

Lemma noCommonPatterns_ignores_case_witness :
  forallb isAscii (lit "MyPassWord1") = true
  /\ noCommonPatterns
       (criteria (evaluatePassword keepCase defaultProps
                    (map asciiToLower (lit "MyPassWord1"))))
     = noCommonPatterns
         (criteria (evaluatePassword keepCase defaultProps (lit "MyPassWord1"))).
Proof.
  split; [reflexivity|].
  apply (proj1 (noCommonPatterns_ignores_case keepCase defaultProps
                  (lit "MyPassWord1") eq_refl)).
Defined.

Lemma commonPattern_length pattern :
  In pattern commonPatterns -> (6 <= List.length pattern)%nat.
Proof.
  unfold commonPatterns. simpl.
  intros [<-|[<-|[<-|[<-|[<-|[<-|[]]]]]]]; simpl; lia.
Qed.

(** X11. Short passwords cannot fail the two negative criteria: with fewer
    than 3 characters [noRepeatedChars] holds, and an ASCII password with
    fewer than 6 characters passes [noCommonPatterns]. *)
Theorem short_passwords_pass_negative_criteria
    (unicodeToLower : jsstring -> jsstring) (props : Props) (pwd : jsstring) :
  ((List.length pwd < 3)%nat ->
   noRepeatedChars (criteria (evaluatePassword unicodeToLower props pwd)) = true)
  /\ (forallb isAscii pwd = true ->
      (List.length pwd < 6)%nat ->
      noCommonPatterns (criteria (evaluatePassword unicodeToLower props pwd))
      = true).
Proof.
  cbn [evaluatePassword criteria evalCriteria noRepeatedChars noCommonPatterns].
  split.
  - intros Hlen. rewrite negb_true_iff, <- not_true_iff_false.
    rewrite regexTest_matchRepeated.
    intros (c & n & _ & Hn & pre & post & E).
    rewrite E, !length_app, repeat_length in Hlen. lia.
  - intros Hascii Hlen. rewrite negb_true_iff.
    apply some_includes_false. intros pattern Hin (pre & post & E).
    apply commonPattern_length in Hin.
    rewrite (toLowerCase_ascii _ _ Hascii) in E.
    apply (f_equal (@List.length codeUnit)) in E.
    rewrite length_map, !length_app in E. lia.
Qed.

Lemma Substring_trans a b c : Substring a b -> Substring b c -> Substring a c.
Proof.
  intros (p1 & q1 & ->) (p2 & q2 & ->).
  exists (p2 ++ p1), (q1 ++ q2). rewrite <- !app_assoc. reflexivity.
Qed.

(** X12. The last blocklist entry, [123456789], never decides the outcome:
    every string containing it contains the first entry, [123456], so the
    check gives the same answer with the five other entries alone. *)
Theorem last_blocklist_entry_is_redundant
    (unicodeToLower : jsstring -> jsstring) (props : Props) (pwd : jsstring) :
  noCommonPatterns (criteria (evaluatePassword unicodeToLower props pwd)) =
  negb (existsb (fun pattern => includes (toLowerCase unicodeToLower pwd) pattern)
          [ lit "123456"; lit "password"; lit "qwerty"; lit "abc123";
            lit "abcdefghijklmnopqrstuvwxyz" ]).
Proof.
  cbn [evaluatePassword criteria evalCriteria noCommonPatterns].
  f_equal. unfold commonPatterns. cbn [existsb].
  set (s := toLowerCase unicodeToLower pwd).
  destruct (includes s (lit "123456789")) eqn:E9.
  - assert (includes s (lit "123456") = true) as E6.
    { apply includes_true. apply includes_true in E9.
      refine (Substring_trans _ E9). exists [], (lit "789"). reflexivity. }
    rewrite E6. reflexivity.
  - rewrite !orb_false_r. reflexivity.
Qed.

(* ================================================================== *)
(** ** What the view shows *)

Lemma mapWithIndex_length (A B : Type) (f : A -> nat -> B) l idx :
  List.length (mapWithIndex f l idx) = List.length l.
Proof.
  revert idx. induction l as [|x l IH]; intros idx; simpl; [reflexivity|].
  rewrite IH. reflexivity.
Qed.

Lemma renderFeedbackHints_length s :
  List.length (renderFeedbackHints s) = Nat.max 1 (List.length (feedback s)).
Proof.
  unfold renderFeedbackHints.
  destruct (feedback s) as [|fb l]; [reflexivity|].
  cbn [List.length Nat.eqb]. rewrite mapWithIndex_length.
  cbn [List.length]. symmetry. apply Nat.max_r. apply le_n_S, Nat.le_0_l.
Qed.

Lemma renderFeedbackHints_placeholder s :
  renderFeedbackHints s = [placeholderHint] <-> feedback s = [].
Proof.
  unfold renderFeedbackHints.
  destruct (feedback s) as [|fb l]; cbn [List.length Nat.eqb mapWithIndex].
  - tauto.
  - split; intros E; discriminate.
Qed.

(** X13. The feedback area is never empty and shows the placeholder
    [Please enter a password] exactly when the displayed strength has no
    feedback.  The first render, made from the initial strength before the
    effect of the mount has run, therefore shows the placeholder, although
    that strength has score 0.  Once the effect has run, and after any
    change events under one configuration, there is one line per feedback
    message of the evaluation of the stored password, and with every flag
    enabled the placeholder is shown exactly when that evaluation scores
    7. *)
Theorem placeholder_shown_iff_no_feedback
    (unicodeToLower : jsstring -> jsstring) (props : Props) (m : Z)
    (texts : list jsstring) :
  (forall st,
      List.length (feedbackHints (render st)) =
        Nat.max 1 (List.length (feedback (strength st)))
      /\ (feedbackHints (render st) = [placeholderHint]
          <-> feedback (strength st) = []))
  /\ feedbackHints (render initialComponent) = [placeholderHint]
  /\ score (strength initialComponent) = 0%Z
  /\ feedback (strength (run unicodeToLower props texts)) =
       feedback (evaluatePassword unicodeToLower props
                   (password (run unicodeToLower props texts)))
  /\ (feedbackHints (render (run unicodeToLower (strictProps m) texts))
        = [placeholderHint]
      <-> score (evaluatePassword unicodeToLower (strictProps m)
                   (password (run unicodeToLower (strictProps m) texts)))
          = 7%Z)
  /\ feedbackHints
       (render (run unicodeToLower defaultProps [lit "SuperStrongPass123!@#"]))
     = [placeholderHint]
  /\ feedbackHints (render (run unicodeToLower defaultProps [])) <>
       [placeholderHint].
Proof.
  split.
  { intros st. cbn [render feedbackHints].
    split; [apply renderFeedbackHints_length
           | apply renderFeedbackHints_placeholder]. }
  split; [reflexivity|]. split; [reflexivity|].
  split.
  { rewrite (reachable_strength_current
               (run_reachable unicodeToLower props texts)).
    reflexivity. }
  split.
  { cbn [render feedbackHints].
    rewrite renderFeedbackHints_placeholder.
    pose proof (run_reachable unicodeToLower (strictProps m) texts) as R.
    rewrite (reachable_strength_current R).
    set (pwd := password (run unicodeToLower (strictProps m) texts)).
    pose proof (strict_feedback_plus_score unicodeToLower m pwd) as Heq.
    split.
    - intros E. rewrite E in Heq. cbn [List.length Z.of_nat] in Heq. lia.
    - intros E. rewrite E in Heq.
      destruct (feedback (evaluatePassword unicodeToLower (strictProps m) pwd));
        [reflexivity | cbn [List.length] in Heq; lia]. }
  split; [reflexivity|].
  intros E. discriminate E.
Qed.

Lemma renderCriteriaList_active s :
  map circleActive (renderCriteriaList s) = Object_values (criteria s).
Proof.
  destruct s as [l sc ms c fb]. destruct c. reflexivity.
Qed.

(** X14. The checklist always has the seven rows of the criteria, in their
    order, each keyed by the name of its criterion; a row is active exactly
    when its criterion passed, so the number of active rows is the score of
    the displayed strength. *)
Theorem checklist_mirrors_criteria
    (unicodeToLower : jsstring -> jsstring) (props : Props)
    (texts : list jsstring) :
  map itemTestID (criteriaItems (render (run unicodeToLower props texts))) =
    [ lit "feedback-length"; lit "feedback-uppercase"; lit "feedback-lowercase";
      lit "feedback-numbers"; lit "feedback-specialChars";
      lit "feedback-noRepeatedChars"; lit "feedback-noCommonPatterns" ]
  /\ map circleActive (criteriaItems (render (run unicodeToLower props texts))) =
       Object_values (criteria (strength (run unicodeToLower props texts)))
  /\ Z.of_nat
       (List.length
          (filter circleActive
             (criteriaItems (render (run unicodeToLower props texts)))))
     = score (strength (run unicodeToLower props texts)).
Proof.
  cbn [render criteriaItems].
  split; [reflexivity|].
  split; [apply renderCriteriaList_active|].
  pose proof (run_reachable unicodeToLower props texts) as R.
  set (st := run unicodeToLower props texts) in *.
  assert (List.length (filter circleActive (renderCriteriaList (strength st)))
          = count_occ bool_dec (map circleActive (renderCriteriaList (strength st))) true)
    as Hc.
  { induction (renderCriteriaList (strength st)) as [|r rs IH]; [reflexivity|].
    simpl. destruct (circleActive r); simpl.
    - destruct (bool_dec true true) as [_|N]; [|contradiction].
      rewrite IH. reflexivity.
    - destruct (bool_dec false true) as [E|_]; [discriminate|]. exact IH. }
  rewrite Hc, renderCriteriaList_active.
  rewrite (reachable_strength_current R) at 2.
  cbn [evaluatePassword score]. rewrite countPassed_count.
  rewrite (reachable_strength_current R). reflexivity.
Qed.

Lemma getColor_level l :
  getColor (levelString l) =
  match l with
  | Weak => lit "red"
  | Medium => lit "orange"
  | Strong => lit "green"
  end.
Proof. destruct l; reflexivity. Qed.

(** X15. The colour of the strength line follows the score of the displayed
    strength: green exactly from 6 up, orange exactly for 4 and 5, red
    exactly below 4; the [default] colour gray of [getColor] is never used. *)
Theorem strength_colour_follows_score
    (unicodeToLower : jsstring -> jsstring) (props : Props)
    (texts : list jsstring) :
  (strengthColor (render (run unicodeToLower props texts)) = lit "green" <->
     (6 <= score (strength (run unicodeToLower props texts)))%Z)
  /\ (strengthColor (render (run unicodeToLower props texts)) = lit "orange" <->
        (4 <= score (strength (run unicodeToLower props texts)) < 6)%Z)
  /\ (strengthColor (render (run unicodeToLower props texts)) = lit "red" <->
        (score (strength (run unicodeToLower props texts)) < 4)%Z)
  /\ strengthColor (render (run unicodeToLower props texts)) <> lit "gray".
Proof.
  cbn [render strengthColor]. rewrite getColor_level.
  pose proof (run_reachable unicodeToLower props texts) as R.
  rewrite (reachable_strength_current R).
  cbn [evaluatePassword level score].
  set (sc := countPassed _ 0).
  pose proof (levelOf_Strong sc) as HS.
  pose proof (levelOf_Medium sc) as HM.
  pose proof (levelOf_Weak sc) as HW.
  destruct (levelOf sc);
    repeat split; intros; try discriminate; try reflexivity;
    try (apply HS; reflexivity); try (apply HM; reflexivity);
    try (apply HW; reflexivity);
    try (assert (sc < 4)%Z by (apply HW; reflexivity); lia);
    try (assert (4 <= sc < 6)%Z by (apply HM; reflexivity); lia);
    try (assert (6 <= sc)%Z by (apply HS; reflexivity); lia).
Qed.

(* ================================================================== *)
(** ** A minimum length the gate cannot meet *)

Lemma buildFeedback_length_first props c :
  length_ok c = false ->
  hd_error (buildFeedback props c) =
  Some (lit "Minimum " ++ numberToString (minLength props) ++ lit " characters").
Proof.
  intros H. unfold buildFeedback, push. rewrite H. cbn [negb].
  destruct (requireUppercase props && negb (uppercase c));
    destruct (requireLowercase props && negb (lowercase c));
    destruct (requireNumbers props && negb (numbers c));
    destruct (requireSpecialChars props && negb (specialChars c));
    destruct (preventRepeatedChars props && negb (noRepeatedChars c));
    destruct (preventCommonPatterns props && negb (noCommonPatterns c));
    reflexivity.
Qed.

(** X16. When the configured minimum length is a safe integer above the 25
    characters the gate lets through, no stored password ever meets the
    length criterion: the score stays at 6 or below and the first feedback
    line is always the minimum-length message, with the decimal numeral of
    the minimum length in it. *)
Theorem minLength_above_gate_is_unreachable
    (unicodeToLower : jsstring -> jsstring) (props : Props)
    (texts : list jsstring)
    (Hmin : (25 < minLength props)%Z)
    (Hsafe : isSafeInteger (minLength props) = true) :
  length_ok (criteria (strength (run unicodeToLower props texts))) = false
  /\ (score (strength (run unicodeToLower props texts)) <= 6)%Z
  /\ exists numeral,
       decimalValue numeral = Some (minLength props)
       /\ hd_error (feedback (strength (run unicodeToLower props texts))) =
            Some (lit "Minimum " ++ numeral ++ lit " characters").
Proof.
  pose proof (run_reachable unicodeToLower props texts) as R.
  pose proof (proj1 (reachable_invariant R)) as [Hlen _].
  rewrite (reachable_strength_current R).
  set (pwd := password (run unicodeToLower props texts)) in *.
  assert (length_ok (evalCriteria unicodeToLower props pwd) = false) as Hl.
  { cbn [evalCriteria length_ok]. apply Z.leb_gt. lia. }
  split; [exact Hl|]. split.
  - rewrite score_sum, Hl. cbn [Z.b2z].
    pose proof (b2z_range (uppercase (evalCriteria unicodeToLower props pwd))).
    pose proof (b2z_range (lowercase (evalCriteria unicodeToLower props pwd))).
    pose proof (b2z_range (numbers (evalCriteria unicodeToLower props pwd))).
    pose proof (b2z_range (specialChars (evalCriteria unicodeToLower props pwd))).
    pose proof (b2z_range (noRepeatedChars (evalCriteria unicodeToLower props pwd))).
    pose proof (b2z_range (noCommonPatterns (evalCriteria unicodeToLower props pwd))).
    lia.
  - exists (numberToString (minLength props)).
    split; [apply decimalValue_numberToString|].
    cbn [evaluatePassword feedback].
    apply buildFeedback_length_first. exact Hl.
Qed.

Lemma minLength_above_gate_is_unreachable_witness :
  (25 < minLength (strictProps 26))%Z
  /\ isSafeInteger (minLength (strictProps 26)) = true
  /\ length_ok
       (criteria (strength (run keepCase (strictProps 26)
                              [lit "Abcdefgh1!"; lit "Zyxwvuts9?"])))
     = false
  /\ (score (strength (run keepCase (strictProps 26)
                         [lit "Abcdefgh1!"; lit "Zyxwvuts9?"])) <= 6)%Z
  /\ exists numeral,
       decimalValue numeral = Some (minLength (strictProps 26))
       /\ hd_error
            (feedback (strength (run keepCase (strictProps 26)
                                   [lit "Abcdefgh1!"; lit "Zyxwvuts9?"])))
          = Some (lit "Minimum " ++ numeral ++ lit " characters").
Proof.
  split; [reflexivity|]. split; [reflexivity|].
  apply (minLength_above_gate_is_unreachable keepCase (strictProps 26)
           [lit "Abcdefgh1!"; lit "Zyxwvuts9?"]); reflexivity.
Defined.

Example test_minimum_length_message (unicodeToLower : jsstring -> jsstring) :
  hd_error
    (feedback (strength (run unicodeToLower (strictProps 26)
                           [lit "Abcdefgh1!"; lit "Zyxwvuts9?"])))
  = Some (lit "Minimum 26 characters").
Proof. reflexivity. Qed.
